(** * FlashLi: the device-identification and flash-decision flow

    A shallow embedding of [src/flashli/configurations.py] (the catalog) and
    of [src/main.py] (the decision flow), together with the properties of
    the specification that concern them.

    Python values are modelled as follows.
    - [str] is [string], a character being a code point below 256 (the
      catalog and the messages are ASCII);
    - [int] is [Z];
    - "[str] or [None]" is [option string];
    - the read-only mapping [CONFIGURATIONS] is an association list in
      declaration order, its inner dictionaries are records;
    - console input and output, spawned processes and hardware queries are
      recorded in an explicit [world]; exceptions are an explicit result. *)

From Stdlib Require Import List String Ascii ZArith Lia Bool Arith.
From Stdlib Require Import Sorted Permutation DecimalString DecimalNat.
Import ListNotations.

Local Open Scope string_scope.
Local Open Scope list_scope.

(** ** Python string built-ins used by the program *)

Module Py.

(** [c.upper()] on one ASCII character. *)
Definition upper_ascii (c : ascii) : ascii :=
  let n := nat_of_ascii c in
  if (97 <=? n)%nat && (n <=? 122)%nat then ascii_of_nat (n - 32) else c.

(** [s.upper()] on ASCII text. *)
Fixpoint upper (s : string) : string :=
  match s with
  | EmptyString => EmptyString
  | String c rest => String (upper_ascii c) (upper rest)
  end.

(** [template.format(arg)] for templates whose only replacement field is
    the positional field [{0}]: every occurrence is replaced by [arg]. *)
Fixpoint format (template arg : string) : string :=
  match template with
  | String "{" (String "0" (String "}" rest)) => arg ++ format rest arg
  | String c rest => String c (format rest arg)
  | EmptyString => EmptyString
  end.

(** [str(v)] for a value that is a [str] or [None], as [str.format]
    renders it. *)
Definition str_of_optional (v : option string) : string :=
  match v with
  | Some s => s
  | None => "None"
  end.

(** [str(n)] for a non-negative integer. *)
Definition str_of_nat (n : nat) : string :=
  NilEmpty.string_of_uint (Nat.to_uint n).

(** [bool(s)] for a string: the empty string is falsy. *)
Definition truthy (s : string) : bool :=
  match s with
  | EmptyString => false
  | String _ _ => true
  end.

Fixpoint repeat_char (c : ascii) (n : nat) : string :=
  match n with
  | O => EmptyString
  | S k => String c (repeat_char c k)
  end.

(** [s.center(width, fill)]: when both the margin and the width are odd
    the extra fill character goes to the left. *)
Definition center (s : string) (width : nat) (fill : ascii) : string :=
  let len := String.length s in
  if (width <=? len)%nat then s
  else
    let marg := (width - len)%nat in
    let left := (marg / 2 + (if Nat.odd marg && Nat.odd width then 1 else 0))%nat in
    repeat_char fill left ++ s ++ repeat_char fill (marg - left).

(** *** [int(s)]

    The decimal literals [int] accepts: optional surrounding whitespace,
    an optional sign, then digits in which single underscores may separate
    digits.  [None] stands for [ValueError].  Below code point 256 the
    whitespace [int] strips is the ASCII whitespace, NEL (133) and the
    no-break space (160), and the only decimal digits are the ASCII
    ones.  The interpreter's limit on the number of digits of a literal
    (4300 unless it is set otherwise) is not part of the model. *)

Definition is_space (c : ascii) : bool :=
  let n := nat_of_ascii c in
  ((9 <=? n)%nat && (n <=? 13)%nat) || (n =? 32)%nat
  || (n =? 133)%nat || (n =? 160)%nat.

(** Every character of [s] is an ASCII character. *)
Fixpoint is_ascii (s : string) : bool :=
  match s with
  | EmptyString => true
  | String c rest => (nat_of_ascii c <? 128)%nat && is_ascii rest
  end.

Definition digit_of (c : ascii) : option Z :=
  let n := nat_of_ascii c in
  if (48 <=? n)%nat && (n <=? 57)%nat then Some (Z.of_nat (n - 48)) else None.

Fixpoint lstrip (s : string) : string :=
  match s with
  | String c rest => if is_space c then lstrip rest else s
  | EmptyString => EmptyString
  end.

Fixpoint all_space (s : string) : bool :=
  match s with
  | String c rest => is_space c && all_space rest
  | EmptyString => true
  end.

(** [digits acc after_digit s]: reads the digits of [s] into [acc];
    [after_digit] tells whether the previous character was a digit, which
    is when an underscore or the end of the number is allowed. *)
Fixpoint digits (acc : Z) (after_digit : bool) (s : string) : option Z :=
  match s with
  | EmptyString => if after_digit then Some acc else None
  | String c rest =>
      match digit_of c with
      | Some d => digits (10 * acc + d) true rest
      | None =>
          if after_digit then
            if Ascii.eqb c "_" then
              match rest with
              | String c' _ =>
                  match digit_of c' with
                  | Some _ => digits acc false rest
                  | None => None
                  end
              | EmptyString => None
              end
            else if all_space s then Some acc else None
          else None
      end
  end.

Definition int (s : string) : option Z :=
  match lstrip s with
  | String "-" rest => option_map Z.opp (digits 0 false rest)
  | String "+" rest => digits 0 false rest
  | body => digits 0 false body
  end.

End Py.

(** ** The catalog: [flashli/configurations.py] *)

Module configurations.

Definition flash_command : string :=
  "vendor/flashrom -p internal -w {0} --ifd -i bios".
Definition overrider_command : string :=
  "vendor/flashrom -p internal:boardmismatch=force -w {0} --ifd -i bios".

Definition vpxxxx_flash_command : string :=
  "vendor/flashrom -p internal -w {0}".
Definition vpxxxx_upgrade : string :=
  "vendor/flashrom -p internal -w {0} --fmap -i RW_SECTION_A".

(** One element of a model's ['bios'] list. *)
Record bios_image : Type := mk_bios {
  vendor : string;
  file : string
}.

(** One value of the catalog.  ['override'] and ['upgrade'] are present
    for some models only. *)
Record configuration : Type := mk_configuration {
  cpu : string;
  bios : list bios_image;
  command : string;
  override : option string;
  upgrade : option string
}.

Definition catalog : Type := list (string * configuration).

Definition ami (f : string) : bios_image := mk_bios "ami" f.
Definition coreboot (f : string) : bios_image := mk_bios "coreboot" f.

Definition fw6_ami : bios_image := ami "FW6_all_YKBR6L12.bin".
Definition fw6_coreboot : bios_image :=
  coreboot "protectli_all_fw6_vault_kbl_v1.0.14.rom".

Definition vp4630 : configuration :=
  mk_configuration "10110U"
    [ami "vp4630_YW6L2314.bin"; coreboot "protectli_vp4630_v1.0.17.rom"]
    vpxxxx_flash_command None (Some vpxxxx_upgrade).

Definition vp4650 : configuration :=
  mk_configuration "10210U"
    [ami "vp4650_YW6L2514.bin"]
    vpxxxx_flash_command None (Some vpxxxx_upgrade).

(** The items of the dictionary display, in the order they are written,
    up to and including ['vp2410r']. *)
Definition items_before_vp4630 : catalog :=
  [ ("fw2", mk_configuration "J1800" [ami "FW2_BTL4A012.bin"] flash_command None None);
    ("fw2b", mk_configuration "J3060"
       [ami "FW2B_BSW4L011.bin"; coreboot "protectli_fw2b_v4.9.0.2.rom"]
       flash_command None None);
    ("fw1", mk_configuration "J1900" [ami "FW1_BTL4A012.bin"] flash_command None None);
    ("fw4a", mk_configuration "E3845" [ami "FW4A_E38L4A12.bin"] flash_command None None);
    ("fw4b", mk_configuration "J3160"
       [ami "FW4B_BSW4L011.bin"; coreboot "protectli_fw4b_v4.12.0.7.rom"]
       flash_command None None);
    ("fw4c", mk_configuration "J3710" [ami "FW4C_220921.bin"] flash_command None None);
    ("fw6a", mk_configuration "3865U" [fw6_ami; fw6_coreboot] flash_command None None);
    ("fw6ar", mk_configuration "3867U" [fw6_ami; fw6_coreboot] flash_command None None);
    ("fw6b", mk_configuration "7100U" [fw6_ami; fw6_coreboot] flash_command None None);
    ("fw6br", mk_configuration "7020U" [fw6_ami; fw6_coreboot] flash_command None None);
    ("fw6br2", mk_configuration "8130U" [fw6_ami; fw6_coreboot] flash_command None None);
    ("fw6c", mk_configuration "7200U" [fw6_ami; fw6_coreboot] flash_command None None);
    ("fw6m", mk_configuration "FW6MC"
       [ami "FW6_825_KBU6LA09.bin"; fw6_coreboot] flash_command None None);
    ("fw6d", mk_configuration "8250U" [fw6_ami; fw6_coreboot]
       flash_command (Some overrider_command) None);
    ("fw6e", mk_configuration "8550U" [fw6_ami; fw6_coreboot]
       flash_command (Some overrider_command) None);
    ("vp2410", mk_configuration "J4125"
       [ami "VP2410_GLK4L260.bin"; coreboot "protectli_vp2410_DF_1.0.9.rom"]
       vpxxxx_flash_command None None);
    ("vp2410r", mk_configuration "J4125"
       [ami "VP2410_GML4AV30.bin"; coreboot "protectli_vp2410_DF_v1.0.15.rom"]
       vpxxxx_flash_command None None) ].

(** The mapping the display declares: every item, in declaration order. *)
Definition CONFIGURATIONS : catalog :=
  items_before_vp4630 ++ [("vp4630", vp4630); ("vp4650", vp4650)].

(** *** The display as it is written

    A dictionary display is a sequence of items separated by commas, with
    an optional trailing comma.  [source] lists the items and the commas
    of the display of [configurations.py] as they stand in the file:
    every item is followed by a comma except ['vp4630'], which is followed
    directly by the item ['vp4650']. *)
Inductive display_token : Type :=
| Item (key : string) (value : configuration)
| Comma.

Definition comma_after (kv : string * configuration) : list display_token :=
  [Item (fst kv) (snd kv); Comma].

Definition source : list display_token :=
  flat_map comma_after items_before_vp4630
    ++ [Item "vp4630" vp4630; Item "vp4650" vp4650; Comma].

(** The grammar of a display: [[item ("," item)* [","]]].  [None] is the
    interpreter's [SyntaxError]. *)
Fixpoint parse_display (tokens : list display_token) : option catalog :=
  match tokens with
  | [] => Some []
  | [Item k v] => Some [(k, v)]
  | Item k v :: Comma :: rest =>
      option_map (cons (k, v)) (parse_display rest)
  | _ => None
  end.

(** The items of a token sequence, whatever separates them. *)
Definition items_of (tokens : list display_token) : catalog :=
  flat_map (fun t => match t with Item k v => [(k, v)] | Comma => [] end) tokens.

End configurations.

(** ** The world the program runs in *)

(** What the program does to the outside, in order. *)
Inductive event : Type :=
| Print (text : string)      (* [print(...)]: the text before the final newline *)
| System (cmd : string)      (* [os.system(cmd)] *)
| Run (cmd : string)         (* [subprocess.run(cmd)] *)
| Hardware (query : string). (* a call into [flashli.hardware] *)

Record world : Type := mk_world {
  stdin : list string;  (* the lines the operator will type *)
  trace : list event
}.

Inductive exn : Type :=
| SyntaxError
| KeyError (key : string)
| IndexError
| ValueError
| EOFError
| SystemExit
| FileNotFoundError.

Inductive result (A : Type) : Type :=
| Return (a : A)
| Raise (e : exn).
Arguments Return {A} a.
Arguments Raise {A} e.

Definition M (A : Type) : Type := world -> result A * world.

Definition ret {A} (a : A) : M A := fun w => (Return a, w).
Definition raise {A} (e : exn) : M A := fun w => (Raise e, w).
Definition bind {A B} (m : M A) (k : A -> M B) : M B :=
  fun w =>
    match m w with
    | (Return a, w') => k a w'
    | (Raise e, w') => (Raise e, w')
    end.

Declare Scope py_scope.
Delimit Scope py_scope with py.
Notation "x <- m ;; k" := (bind m (fun x => k))
  (at level 61, m at next level, right associativity) : py_scope.
Notation "m ;; k" := (bind m (fun _ => k))
  (at level 61, right associativity) : py_scope.

Definition emit (e : event) : M unit :=
  fun w => (Return tt, mk_world (stdin w) (trace w ++ [e])).

Definition print (text : string) : M unit := emit (Print text).

(** [sys.exit()] *)
Definition sys_exit {A} : M A := raise SystemExit.

(** [input()]: the next line, [EOFError] when there is none. *)
Definition input : M string :=
  fun w =>
    match stdin w with
    | [] => (Raise EOFError, w)
    | line :: rest => (Return line, mk_world rest (trace w))
    end.

Definition lift {A} (r : result A) : M A := fun w => (r, w).

(** The collaborators of [flashli.hardware], whose module is not part of
    the sources at hand: what each call answers, given the debug device. *)
Record hardware : Type := mk_hardware {
  get_protectli_device : string -> string;
  is_protectli_device : string -> bool;
  get_bios_mode : string -> string
}.

(** Everything [main.py] reads from its surroundings.  [execute path] is
    what comes of starting the program found at [path], without
    arguments, and waiting for it: its return code, or the exception
    raised when it cannot be started, [FileNotFoundError] when there is no
    such file. *)
Record environment : Type := mk_environment {
  DEBUGMODE : string;                      (* the module global *)
  geteuid : Z;                             (* [os.geteuid()] *)
  columns : nat;                           (* [os.get_terminal_size().columns] *)
  hw : hardware;
  execute : string -> result Z;            (* starting the program at a path *)
  textwrap_fill : string -> nat -> string  (* [textwrap.fill] *)
}.

(** The projections of a trace: what was printed, the command lines
    handed to [subprocess.run], and those handed to [os.system]. *)
Definition printed (t : list event) : list string :=
  flat_map (fun e => match e with Print s => [s] | _ => [] end) t.
Definition spawned (t : list event) : list string :=
  flat_map (fun e => match e with Run c => [c] | _ => [] end) t.
Definition shelled (t : list event) : list string :=
  flat_map (fun e => match e with System c => [c] | _ => [] end) t.

(** ** The program: [main.py] *)

Module main.

Import configurations.
Local Open Scope py_scope.

Definition VERSION : string := "1.1.0".

(** The value [DEBUGMODE] has in the file. *)
Definition DEBUGMODE_in_file : string := "fw2b".

(** [a == b] where [a] is a [str] and [b] a [str] or [None]. *)
Definition str_eq (a : string) (b : option string) : bool :=
  match b with
  | Some s => String.eqb a s
  | None => false
  end.

(** [x in map(lambda option: option['vendor'], available_options)] *)
Definition in_vendors (x : string) (available_options : list bios_image) : bool :=
  existsb (fun available_option => String.eqb x (vendor available_option))
    available_options.

Section Flow.

Variable env : environment.

(** [CONFIGURATIONS = configurations.CONFIGURATIONS], bound when the
    module is imported. *)
Variable CONFIGURATIONS : catalog.

(** [CONFIGURATIONS[model]] *)
Fixpoint lookup (cat : catalog) (model : string) : result configuration :=
  match cat with
  | [] => Raise (KeyError model)
  | (k, v) :: rest => if String.eqb k model then Return v else lookup rest model
  end.

Definition get_version : string := VERSION.

Definition get_terminal_width : nat := columns env.

(** The [for] loop of [get_image_path]: the first image whose vendor is
    the requested one; [None] when the loop ends without returning. *)
Fixpoint first_image (images : list bios_image) (requested_bios : option string)
  : option string :=
  match images with
  | [] => None
  | image :: rest =>
      if str_eq (vendor image) requested_bios
      then Some (Py.format "images/{0}" (file image))
      else first_image rest requested_bios
  end.

Definition get_image_path (model : string) (requested_bios : option string)
  : result (option string) :=
  match lookup CONFIGURATIONS model with
  | Return configuration => Return (first_image (bios configuration) requested_bios)
  | Raise e => Raise e
  end.

(** [subprocess.run(cmd).returncode].  The command line is passed as one
    string and no shell is asked for, so the whole of [cmd] is taken as
    the path of the program to start; the call raises when that program
    cannot be started. *)
Definition subprocess_run (cmd : string) : M Z :=
  emit (Run cmd) ;; lift (execute env cmd).

Definition do_flash (model : string) (bios : option string) : M Z :=
  if Py.truthy (DEBUGMODE env) then
    print "Not actually flashing, script is in debug mode." ;;
    ret 0%Z
  else
    file_path <- lift (get_image_path model bios) ;;
    returncode <- subprocess_run
      (Py.format "vendor/flashrom -p internal -w {0} --ifd -i bios"
         (Py.str_of_optional file_path)) ;;
    ret returncode.

(** [list(CONFIGURATIONS)] *)
Definition keys (cat : catalog) : list string := map fst cat.

(** [devices.sort()]: ascending by code point, by insertion. *)
Fixpoint insert_sorted (x : string) (l : list string) : list string :=
  match l with
  | [] => [x]
  | y :: rest => if String.leb x y then x :: l else y :: insert_sorted x rest
  end.

Definition sort (l : list string) : list string :=
  fold_right insert_sorted [] l.

(** The names are the arguments of one [print] whose separator is the
    newline character. *)
Definition print_supported_products : M unit :=
  let devices := map Py.upper (keys CONFIGURATIONS) in
  let devices := sort devices in
  print (String.concat (String "010" EmptyString) devices).

(** The [for] loop that displays the numbered menu, counting from
    [number]. *)
Fixpoint print_options (number : nat) (available_options : list bios_image) : M unit :=
  match available_options with
  | [] => ret tt
  | available_option :: rest =>
      print (Py.str_of_nat number ++ ": " ++ vendor available_option) ;;
      print_options (S number) rest
  end.

(** The [while] loop of [get_user_selection].  [selection] is never
    assigned, so the condition compares the empty string with the vendors
    at every turn; each turn that reaches [input()] consumes one line,
    which is what the recursion follows. *)
Fixpoint selection_loop (available_options : list bios_image)
    (lines : list string) (t : list event) : result (option string) * world :=
  if in_vendors "" available_options then (Return None, mk_world lines t)
  else
    let t := trace (snd (print_options 1 available_options (mk_world lines t))) in
    match lines with
    | [] => (Raise EOFError, mk_world [] t)
    | line :: rest =>
        match Py.int line with
        | None => (Raise ValueError, mk_world rest t)
        | Some user_input =>
            if (0 <? user_input)%Z
               && (user_input <=? Z.of_nat (List.length available_options))%Z
            then
              match nth_error available_options (Z.to_nat (user_input - 1)) with
              | Some available_option =>
                  (Return (Some (vendor available_option)), mk_world rest t)
              | None => (Raise IndexError, mk_world rest t)
              end
            else selection_loop available_options rest t
        end
    end.

Definition get_user_selection (device : string) : M (option string) :=
  configuration <- lift (lookup CONFIGURATIONS device) ;;
  let available_options := bios configuration in
  fun w => selection_loop available_options (stdin w) (trace w).

Definition show_debug_info : M unit :=
  print "TODO: Collect info and display instructions on how to submit a Github issue.".

Definition EFI_MESSAGE : string :=
  "This tool must be run in Legacy BIOS mode, not EFI. If you are using this tool to update an existing EFI system, you may experience issues booting into your operating system after flashing a new BIOS. If you are aware of the risks and wish to proceed with flashing a new BIOS image, please reboot your device and configure your current BIOS to boot into Legacy Mode.".

(** A call into [flashli.hardware], recorded in the trace. *)
Definition ask_hardware {A} (query : string) (answer : hardware -> string -> A) : M A :=
  emit (Hardware query) ;; ret (answer (hw env) (DEBUGMODE env)).

Definition main : M unit :=
  device <- ask_hardware "get_protectli_device" get_protectli_device ;;
  emit (System "/bin/clear") ;;
  print (Py.center "FlashLi" get_terminal_width "=") ;;
  print (Py.center (Py.format "--Version {0}--" get_version) get_terminal_width "-") ;;
  print (Py.format "Device: {0}" device) ;;
  supported <- ask_hardware "is_protectli_device" is_protectli_device ;;
  if negb supported then
    print "Sorry, this is an unsupported device." ;;
    print "This tool is used to flash BIOS onto the following Protectli products:" ;;
    print_supported_products ;;
    sys_exit
  else
    bios_mode <- ask_hardware "get_bios_mode" get_bios_mode ;;
    print (Py.format "BIOS Mode: {0}" bios_mode) ;;
    if String.eqb bios_mode "EFI" then
      print (textwrap_fill env EFI_MESSAGE get_terminal_width) ;;
      sys_exit
    else
      print "Available BIOS:" ;;
      selection <- get_user_selection device ;;
      returncode <- do_flash device selection ;;
      if (returncode =? 0)%Z then
        print "Flash completed and successful." ;;
        print "Please restart your device."
      else
        print "BIOS Flash failed, is this script running with root permissions?" ;;
        print "Please try again, but if problems persist, please let us know." ;;
        show_debug_info.

End Flow.

(** [from flashli import configurations, hardware]: the display of
    [configurations.py] is parsed when the module is imported. *)
Definition import_configurations (tokens : list display_token) : M catalog :=
  match parse_display tokens with
  | Some cat => ret cat
  | None => raise SyntaxError
  end.

(** The whole script, top to bottom: the imports, the check for the root
    user, then [main()]. *)
Definition script (env : environment) (tokens : list display_token) : M unit :=
  CONFIGURATIONS <- import_configurations tokens ;;
  if negb (geteuid env =? 0)%Z && negb (Py.truthy (DEBUGMODE env)) then
    print "Need to be run as root user" ;;
    print "Please run: sudo ./main.py" ;;
    sys_exit
  else
    main env CONFIGURATIONS.

End main.

(** ** The ends of [main] and what they leave behind *)

Module flow.

Import configurations main.

(** The numbered menu one turn of the selection loop displays. *)
Fixpoint menu_from (number : nat) (available_options : list bios_image) : list event :=
  match available_options with
  | [] => []
  | available_option :: rest =>
      Print (Py.str_of_nat number ++ ": " ++ vendor available_option)
        :: menu_from (S number) rest
  end.

Definition menu (available_options : list bios_image) : list event :=
  menu_from 1 available_options.

(** [turns n l]: [l] displayed [n] times in a row. *)
Fixpoint turns (n : nat) (l : list event) : list event :=
  match n with
  | O => []
  | S k => l ++ turns k l
  end.

Definition device_of (env : environment) : string :=
  get_protectli_device (hw env) (DEBUGMODE env).
Definition supported (env : environment) : bool :=
  is_protectli_device (hw env) (DEBUGMODE env).
Definition bios_mode_of (env : environment) : string :=
  get_bios_mode (hw env) (DEBUGMODE env).

(** What [main] does before it asks whether the device is supported. *)
Definition banner (env : environment) : list event :=
  [ Hardware "get_protectli_device";
    System "/bin/clear";
    Print (Py.center "FlashLi" (columns env) "=");
    Print (Py.center (Py.format "--Version {0}--" VERSION) (columns env) "-");
    Print (Py.format "Device: {0}" (device_of env)) ].

(** The listing of the supported products. *)
Definition listing (cat : catalog) : list string :=
  sort (map Py.upper (keys cat)).

Definition newline : string := String "010" EmptyString.

(** The end of [main] for an unsupported device. *)
Definition UnsupportedDevice (env : environment) (cat : catalog) (w : world)
  : result unit * world :=
  (Raise SystemExit,
   mk_world (stdin w)
     (trace w ++ banner env ++
      [ Hardware "is_protectli_device";
        Print "Sorry, this is an unsupported device.";
        Print "This tool is used to flash BIOS onto the following Protectli products:";
        Print (String.concat newline (listing cat)) ])).

(** The end of [main] for a device that booted in EFI mode. *)
Definition WrongBootMode (env : environment) (w : world) : result unit * world :=
  (Raise SystemExit,
   mk_world (stdin w)
     (trace w ++ banner env ++
      [ Hardware "is_protectli_device";
        Hardware "get_bios_mode";
        Print (Py.format "BIOS Mode: {0}" "EFI");
        Print (textwrap_fill env EFI_MESSAGE (columns env)) ])).

(** The world in which the selection is offered. *)
Definition OfferSelection (env : environment) (w : world) : world :=
  mk_world (stdin w)
    (trace w ++ banner env ++
     [ Hardware "is_protectli_device";
       Hardware "get_bios_mode";
       Print (Py.format "BIOS Mode: {0}" (bios_mode_of env));
       Print "Available BIOS:" ]).

(** What [main] reports after the flash. *)
Definition FlashSucceeded : list event :=
  [ Print "Flash completed and successful.";
    Print "Please restart your device." ].

Definition FlashFailed : list event :=
  [ Print "BIOS Flash failed, is this script running with root permissions?";
    Print "Please try again, but if problems persist, please let us know.";
    Print "TODO: Collect info and display instructions on how to submit a Github issue." ].

Definition report (returncode : Z) : list event :=
  if (returncode =? 0)%Z then FlashSucceeded else FlashFailed.

(** The command [do_flash] spawns for an image path. *)
Definition spawned_command (file_path : option string) : string :=
  Py.format flash_command (Py.str_of_optional file_path).

(** A user input is a valid choice among [n] options. *)
Definition in_range (n : nat) (user_input : Z) : Prop :=
  (0 < user_input <= Z.of_nat n)%Z.

(** An input line that is an integer outside the menu. *)
Definition out_of_range (n : nat) (line : string) : Prop :=
  exists user_input, Py.int line = Some user_input /\ ~ in_range n user_input.

(** Decidable checks on catalogs. *)
Fixpoint distinct (l : list string) : bool :=
  match l with
  | [] => true
  | x :: rest => negb (existsb (String.eqb x) rest) && distinct rest
  end.

Definition descriptors_ok (c : configuration) : bool :=
  match bios c with
  | [] => false
  | _ :: _ => distinct (map vendor (bios c)) && negb (in_vendors "" (bios c))
  end.

(** Ascending order of strings by code point. *)
Definition ascending (a b : string) : Prop := String.leb a b = true.

(** The capital of a letter, by the alphabet; other characters have none
    and stay as they are. *)
Definition alphabet : list (ascii * ascii) :=
  combine (list_ascii_of_string "abcdefghijklmnopqrstuvwxyz")
          (list_ascii_of_string "ABCDEFGHIJKLMNOPQRSTUVWXYZ").

Definition capital (c : ascii) : ascii :=
  match find (fun letter => Ascii.eqb (fst letter) c) alphabet with
  | Some letter => snd letter
  | None => c
  end.

Definition in_capitals (s : string) : string :=
  string_of_list_ascii (map capital (list_ascii_of_string s)).

(** The names the listing of the file's catalog is expected to show, one
    per line. *)
Definition supported_products : list string :=
  [ "FW1"; "FW2"; "FW2B"; "FW4A"; "FW4B"; "FW4C"; "FW6A"; "FW6AR"; "FW6B";
    "FW6BR"; "FW6BR2"; "FW6C"; "FW6D"; "FW6E"; "FW6M"; "VP2410"; "VP2410R";
    "VP4630"; "VP4650" ].

(** The command lines handed to [os.system]. *)
Definition clear_screen : list string := ["/bin/clear"].

End flow.

(** ** The hardware module *)

Module hardware_model.

Import configurations.

Inductive boot_mode : Type := Legacy | UEFI.

Record HardwareSnapshot : Type := mk_snapshot {
  modelId : string;
  bootMode : boot_mode;
  currentFirmwareVendor : option string
}.

(** Modelled from the spec: [flashli/hardware.py] is not among the sources;
    only its three calls in [main.py] are.  Following the specification
    (Identify: "look up in Catalog, on miss UnsupportedDevice"; the
    provider "exposes the model identifier and current firmware boot
    mode"), the device is the snapshot's model identifier, it is supported
    when that identifier is a key of the catalog, and the mode reads [EFI]
    for UEFI. *)
Definition snapshot_hardware (cat : catalog) (s : HardwareSnapshot) : hardware :=
  mk_hardware
    (fun _ => modelId s)
    (fun _ => existsb (String.eqb (modelId s)) (map fst cat))
    (fun _ => match bootMode s with UEFI => "EFI" | Legacy => "Legacy" end).

End hardware_model.

(** ** Concrete surroundings used by the examples *)

Module bench.

Import configurations hardware_model.

(** A [textwrap.fill] stand-in for a terminal wider than the text. *)
Definition no_wrap (text : string) (width : nat) : string := text.

(** A machine that answers [device], supported, in mode [mode]. *)
Definition machine (device mode : string) : hardware :=
  mk_hardware (fun _ => device) (fun _ => true) (fun _ => mode).

(** A machine the hardware module does not recognise. *)
Definition stranger (device mode : string) : hardware :=
  mk_hardware (fun _ => device) (fun _ => false) (fun _ => mode).

(** Root user, 80 columns, a system on which whatever is started returns
    [code]. *)
Definition surroundings (debug : string) (h : hardware) (code : Z) : environment :=
  mk_environment debug 0 80 h (fun _ => Return code) no_wrap.

(** A system on which the one program that can be started is
    [vendor/flashrom]. *)
Definition only_flashrom (path : string) : result Z :=
  if String.eqb path "vendor/flashrom" then Return 0%Z else Raise FileNotFoundError.

(** Root user, 80 columns, a supported machine in legacy mode, the debug
    device unset, on such a system. *)
Definition posix_env (device : string) : environment :=
  mk_environment "" 0 80 (machine device "Legacy") only_flashrom no_wrap.

Definition typed (lines : list string) : world := mk_world lines [].

(** A machine whose model identifier is not in the catalog. *)
Definition fw9 : HardwareSnapshot := mk_snapshot "fw9" Legacy None.
Definition fw9_env : environment :=
  surroundings main.DEBUGMODE_in_file (snapshot_hardware CONFIGURATIONS fw9) 0.

(** A supported machine that booted in EFI mode. *)
Definition fw2b_efi_env : environment :=
  surroundings main.DEBUGMODE_in_file (machine "fw2b" "EFI") 0.

(** An unsupported machine that booted in EFI mode. *)
Definition stranger_efi_env : environment :=
  surroundings main.DEBUGMODE_in_file (stranger "fw9" "EFI") 0.

(** Supported machines in legacy mode, the debug device unset, with a
    flash executor that returns [code]. *)
Definition legacy_env (device : string) (code : Z) : environment :=
  surroundings "" (machine device "Legacy") code.

(** The same machine with [DEBUGMODE] as it is in the file. *)
Definition legacy_debug_env (device : string) : environment :=
  surroundings main.DEBUGMODE_in_file (machine device "Legacy") 0.

(** An ordinary user (not root) on a supported machine, the debug device
    unset or set. *)
Definition user_env (debug : string) : environment :=
  mk_environment debug 1000 80 (machine "fw2b" "Legacy") (fun _ => Return 0%Z) no_wrap.

(** A catalog whose only model has no image. *)
Definition bare_catalog : catalog :=
  [("fw0", mk_configuration "none" [] flash_command None None)].

(** A catalog whose only model lists the same vendor twice. *)
Definition twin_catalog : catalog :=
  [("fw0", mk_configuration "none" [ami "first.bin"; ami "second.bin"]
             flash_command None None)].

(** A catalog whose only model has an image without a vendor name. *)
Definition nameless_catalog : catalog :=
  [("fw0", mk_configuration "none" [mk_bios "" "anonymous.bin"]
             flash_command None None)].

End bench.

(** ** Properties *)

Import configurations main flow.

(** *** The catalog *)

Lemma lookup_In (cat : catalog) (model : string) (c : configuration) :
  lookup cat model = Return c -> In (model, c) cat.
Proof.
  induction cat as [| [k v] rest IH]; simpl.
  - discriminate.
  - destruct (String.eqb k model) eqn:E.
    + intros H. injection H as ->. apply String.eqb_eq in E. subst. now left.
    + intros H. right. now apply IH.
Qed.

Lemma lookup_missing (cat : catalog) (model : string) :
  ~ In model (keys cat) -> lookup cat model = Raise (KeyError model).
Proof.
  induction cat as [| [k v] rest IH]; simpl; intros H.
  - reflexivity.
  - destruct (String.eqb k model) eqn:E.
    + apply String.eqb_eq in E. tauto.
    + apply IH. tauto.
Qed.

Lemma existsb_eqb_In (x : string) (l : list string) :
  existsb (String.eqb x) l = true <-> In x l.
Proof.
  rewrite existsb_exists. split.
  - intros [y [Hy E]]. apply String.eqb_eq in E. now subst.
  - intros H. exists x. split; [assumption | apply String.eqb_refl].
Qed.

Lemma distinct_NoDup (l : list string) : distinct l = true -> NoDup l.
Proof.
  induction l as [| x rest IH]; simpl; intros H.
  - constructor.
  - apply andb_true_iff in H as [Hx Hrest].
    constructor; [| now apply IH].
    intros Hin. apply existsb_eqb_In in Hin.
    rewrite Hin in Hx. discriminate.
Qed.

Lemma in_vendors_In (x : string) (available_options : list bios_image) :
  in_vendors x available_options = true <-> In x (map vendor available_options).
Proof.
  unfold in_vendors. rewrite existsb_exists, in_map_iff. split.
  - intros [o [Ho E]]. apply String.eqb_eq in E. exists o. now split.
  - intros [o [E Ho]]. exists o. split; [assumption |].
    subst. apply String.eqb_refl.
Qed.

(** Every entry of the catalog passes the decidable check. *)
Lemma CONFIGURATIONS_checked :
  forallb (fun kv => descriptors_ok (snd kv)) CONFIGURATIONS = true.
Proof. vm_compute. reflexivity. Qed.

Lemma supported_model_ok (model : string) (c : configuration) :
  lookup CONFIGURATIONS model = Return c -> descriptors_ok c = true.
Proof.
  intros H. apply lookup_In in H.
  pose proof CONFIGURATIONS_checked as Hall.
  rewrite forallb_forall in Hall.
  exact (Hall _ H).
Qed.

Lemma descriptors_ok_inv (c : configuration) :
  descriptors_ok c = true ->
  bios c <> [] /\ NoDup (map vendor (bios c)) /\ in_vendors "" (bios c) = false.
Proof.
  unfold descriptors_ok. destruct (bios c) as [| b rest] eqn:E.
  - discriminate.
  - intros H. apply andb_true_iff in H as [Hd Hv].
    split; [discriminate |]. split.
    + now apply distinct_NoDup.
    + now apply negb_true_iff in Hv.
Qed.

(** C7: every key of the catalog maps to a device model whose list of
    firmware descriptors is not empty and whose vendor tags are pairwise
    distinct. *)
Theorem catalog_descriptors_nonempty_distinct (k : string) (c : configuration) :
  lookup CONFIGURATIONS k = Return c ->
  bios c <> [] /\ NoDup (map vendor (bios c)).
Proof.
  intros H. apply supported_model_ok in H.
  apply descriptors_ok_inv in H. tauto.
Qed.

Lemma catalog_descriptors_nonempty_distinct_witness :
  lookup CONFIGURATIONS "fw6d"
    = Return (mk_configuration "8250U" [fw6_ami; fw6_coreboot]
                flash_command (Some overrider_command) None)
  /\ [fw6_ami; fw6_coreboot] <> []
  /\ NoDup ["ami"; "coreboot"].
Proof.
  split; [reflexivity |].
  exact (catalog_descriptors_nonempty_distinct "fw6d" _ eq_refl).
Defined.

(** *** [get_image_path] *)

Lemma format_images (f : string) :
  Py.format "images/{0}" f = ("images/" ++ f)%string.
Proof.
  simpl. repeat f_equal.
  induction f as [| ch rest IH]; simpl; [reflexivity | now rewrite IH].
Qed.

Lemma first_image_none (images : list bios_image) (requested : string) :
  ~ In requested (map vendor images) ->
  first_image images (Some requested) = None.
Proof.
  induction images as [| image rest IH]; simpl; intros H.
  - reflexivity.
  - destruct (String.eqb (vendor image) requested) eqn:E.
    + apply String.eqb_eq in E. tauto.
    + apply IH. tauto.
Qed.

Lemma first_image_found (images : list bios_image) (b : bios_image) :
  NoDup (map vendor images) -> In b images ->
  first_image images (Some (vendor b)) = Some ("images/" ++ file b)%string.
Proof.
  induction images as [| image rest IH]; intros Hd Hin;
    cbn [first_image str_eq map In] in *.
  - contradiction.
  - inversion Hd as [| ? ? Hnotin Hrest]; subst.
    destruct Hin as [-> | Hin].
    + rewrite String.eqb_refl. now rewrite format_images.
    + destruct (String.eqb (vendor image) (vendor b)) eqn:E.
      * apply String.eqb_eq in E. exfalso. apply Hnotin.
        rewrite E. now apply in_map.
      * now apply IH.
Qed.

(** C10: for a model of the catalog and a requested vendor that is the
    vendor tag of none of its descriptors, [get_image_path] raises nothing
    and returns no path: the loop ends and the function returns [None]. *)
Theorem get_image_path_unknown_vendor
    (cat : catalog) (model : string) (c : configuration) (requested_bios : string) :
  lookup cat model = Return c ->
  ~ In requested_bios (map vendor (bios c)) ->
  get_image_path cat model (Some requested_bios) = Return None.
Proof.
  intros Hc Hnot. unfold get_image_path. rewrite Hc.
  now rewrite first_image_none.
Qed.

Lemma get_image_path_unknown_vendor_witness :
  get_image_path CONFIGURATIONS "fw2b" (Some "seabios") = Return None.
Proof.
  apply (get_image_path_unknown_vendor CONFIGURATIONS "fw2b"
           (mk_configuration "J3060"
              [ami "FW2B_BSW4L011.bin"; coreboot "protectli_fw2b_v4.9.0.2.rom"]
              flash_command None None)).
  - reflexivity.
  - simpl. intros [H | [H | []]]; discriminate.
Defined.

(** *** [get_user_selection] *)

Lemma print_options_trace (number : nat) (available_options : list bios_image) (w : world) :
  print_options number available_options w
  = (Return tt, mk_world (stdin w) (trace w ++ menu_from number available_options)).
Proof.
  revert number w.
  induction available_options as [| o rest IH]; intros number w.
  - simpl. unfold ret. rewrite app_nil_r. now destruct w.
  - cbn [print_options menu_from]. unfold bind, print, emit.
    rewrite IH. cbn [stdin trace]. now rewrite <- app_assoc.
Qed.

(** One turn of the loop on an integer within the menu. *)
Lemma selection_loop_chosen
    (available_options : list bios_image) (line : string) (user_input : Z)
    (rest : list string) (t : list event) :
  in_vendors "" available_options = false ->
  Py.int line = Some user_input ->
  in_range (List.length available_options) user_input ->
  exists chosen,
    nth_error available_options (Z.to_nat (user_input - 1)) = Some chosen
    /\ selection_loop available_options (line :: rest) t
       = (Return (Some (vendor chosen)),
          mk_world rest (t ++ menu available_options)).
Proof.
  intros Hempty Hint [Hlo Hhi].
  destruct (nth_error available_options (Z.to_nat (user_input - 1))) as [o |] eqn:Hnth.
  - exists o. split; [reflexivity |].
    cbn [selection_loop]. rewrite Hempty, Hint, print_options_trace.
    cbn [snd trace stdin].
    apply Z.ltb_lt in Hlo. apply Z.leb_le in Hhi.
    rewrite Hlo, Hhi. cbn [andb]. now rewrite Hnth.
  - apply nth_error_None in Hnth. lia.
Qed.

(** One turn of the loop on an integer outside the menu. *)
Lemma selection_loop_again
    (available_options : list bios_image) (line : string) (user_input : Z)
    (rest : list string) (t : list event) :
  in_vendors "" available_options = false ->
  Py.int line = Some user_input ->
  ~ in_range (List.length available_options) user_input ->
  selection_loop available_options (line :: rest) t
  = selection_loop available_options rest (t ++ menu available_options).
Proof.
  intros Hempty Hint Hout.
  cbn [selection_loop]. rewrite Hempty, Hint, print_options_trace.
  cbn [snd trace stdin].
  destruct ((0 <? user_input)%Z
            && (user_input <=? Z.of_nat (List.length available_options))%Z) eqn:E.
  - exfalso. apply Hout. apply andb_true_iff in E as [Hlo Hhi].
    apply Z.ltb_lt in Hlo. apply Z.leb_le in Hhi. now split.
  - reflexivity.
Qed.

(** One turn of the loop on a line that is not an integer. *)
Lemma selection_loop_not_an_integer
    (available_options : list bios_image) (line : string)
    (rest : list string) (t : list event) :
  in_vendors "" available_options = false ->
  Py.int line = None ->
  selection_loop available_options (line :: rest) t
  = (Raise ValueError, mk_world rest (t ++ menu available_options)).
Proof.
  intros Hempty Hint.
  cbn [selection_loop]. now rewrite Hempty, Hint, print_options_trace.
Qed.

Lemma selection_loop_skips
    (available_options : list bios_image) (invalid rest : list string) (t : list event) :
  in_vendors "" available_options = false ->
  Forall (out_of_range (List.length available_options)) invalid ->
  selection_loop available_options (invalid ++ rest) t
  = selection_loop available_options rest
      (t ++ turns (List.length invalid) (menu available_options)).
Proof.
  intros Hempty Hall. revert t.
  induction Hall as [| line invalid [n [Hint Hout]] _ IH]; intros t.
  - cbn [app List.length turns]. now rewrite app_nil_r.
  - cbn [app List.length turns].
    rewrite (selection_loop_again _ _ n) by assumption.
    rewrite IH. now rewrite <- app_assoc.
Qed.

Lemma get_user_selection_loop
    (cat : catalog) (device : string) (c : configuration) (w : world) :
  lookup cat device = Return c ->
  get_user_selection cat device w = selection_loop (bios c) (stdin w) (trace w).
Proof.
  intros H. unfold get_user_selection, bind, lift. now rewrite H.
Qed.

(** C9: the selection is a number counted from one, not a vendor tag.
    For a supported model and an input line that reads as the integer
    [n]: when [1 <= n <= len(bios)] the function returns the vendor tag of
    the n-th descriptor in declaration order, after one display of the
    menu; otherwise the menu has been displayed and the function carries on
    with the next line, which displays the numbered menu again. *)
Theorem selection_is_by_index
    (device : string) (c : configuration) (line : string) (n : Z)
    (rest : list string) (t : list event) :
  lookup CONFIGURATIONS device = Return c ->
  Py.int line = Some n ->
  (in_range (List.length (bios c)) n ->
   exists chosen,
     nth_error (bios c) (Z.to_nat (n - 1)) = Some chosen
     /\ get_user_selection CONFIGURATIONS device (mk_world (line :: rest) t)
        = (Return (Some (vendor chosen)), mk_world rest (t ++ menu (bios c))))
  /\ (~ in_range (List.length (bios c)) n ->
      get_user_selection CONFIGURATIONS device (mk_world (line :: rest) t)
      = get_user_selection CONFIGURATIONS device
          (mk_world rest (t ++ menu (bios c)))).
Proof.
  intros Hc Hint.
  pose proof (supported_model_ok _ _ Hc) as Hok.
  apply descriptors_ok_inv in Hok as (_ & _ & Hempty).
  rewrite !(get_user_selection_loop _ _ _ _ Hc). cbn [stdin trace].
  split; intros Hn.
  - now apply selection_loop_chosen.
  - now apply (selection_loop_again _ _ n).
Qed.

Lemma selection_is_by_index_witness :
  get_user_selection CONFIGURATIONS "fw2b" (mk_world ["2"; "1"] [])
    = (Return (Some "coreboot"),
       mk_world ["1"] [Print "1: ami"; Print "2: coreboot"])
  /\ get_user_selection CONFIGURATIONS "fw2b" (mk_world ["3"; "1"] [])
     = get_user_selection CONFIGURATIONS "fw2b"
         (mk_world ["1"] [Print "1: ami"; Print "2: coreboot"]).
Proof.
  pose (c := mk_configuration "J3060"
               [ami "FW2B_BSW4L011.bin"; coreboot "protectli_fw2b_v4.9.0.2.rom"]
               flash_command None None).
  split.
  - destruct (selection_is_by_index "fw2b" c "2" 2 ["1"] [] eq_refl eq_refl)
      as [Hin _].
    destruct Hin as [o [Ho Hsel]].
    + unfold in_range. simpl. lia.
    + simpl in Ho. injection Ho as <-. exact Hsel.
  - destruct (selection_is_by_index "fw2b" c "3" 3 ["1"] [] eq_refl eq_refl)
      as [_ Hout].
    apply Hout. unfold in_range. simpl. lia.
Defined.

(** C6, as the code has it: for a supported model, any number of input
    lines that read as integers outside [1 .. len(bios)], followed by a
    line that reads as an integer inside it, make the selection step
    display the menu once per line without raising, and return the vendor
    tag the last line returns when it is typed alone. *)
Theorem out_of_range_numbers_are_asked_again
    (device : string) (c : configuration) (invalid : list string)
    (valid : string) (n : Z) (rest : list string) (t : list event) :
  lookup CONFIGURATIONS device = Return c ->
  Forall (out_of_range (List.length (bios c))) invalid ->
  Py.int valid = Some n ->
  in_range (List.length (bios c)) n ->
  exists chosen,
    nth_error (bios c) (Z.to_nat (n - 1)) = Some chosen
    /\ get_user_selection CONFIGURATIONS device (mk_world (valid :: rest) t)
       = (Return (Some (vendor chosen)), mk_world rest (t ++ menu (bios c)))
    /\ get_user_selection CONFIGURATIONS device
         (mk_world (invalid ++ valid :: rest) t)
       = (Return (Some (vendor chosen)),
          mk_world rest
            (t ++ turns (S (List.length invalid)) (menu (bios c)))).
Proof.
  intros Hc Hall Hint Hn.
  pose proof (supported_model_ok _ _ Hc) as Hok.
  apply descriptors_ok_inv in Hok as (_ & _ & Hempty).
  rewrite !(get_user_selection_loop _ _ _ _ Hc). cbn [stdin trace].
  destruct (selection_loop_chosen (bios c) valid n rest t Hempty Hint Hn)
    as [o [Ho Hsel]].
  exists o. split; [assumption |]. split; [assumption |].
  rewrite selection_loop_skips by assumption.
  destruct (selection_loop_chosen (bios c) valid n rest
              (t ++ turns (List.length invalid) (menu (bios c))) Hempty Hint Hn)
    as [o' [Ho' Hsel']].
  rewrite Ho in Ho'. injection Ho' as <-.
  rewrite Hsel'. f_equal. f_equal.
  rewrite <- app_assoc. f_equal.
  clear. induction (List.length invalid) as [| k IH]; cbn [turns].
  - now rewrite app_nil_r.
  - rewrite <- app_assoc. f_equal. exact IH.
Qed.

Lemma out_of_range_numbers_are_asked_again_witness :
  get_user_selection CONFIGURATIONS "fw2b" (mk_world ["1"] [])
    = (Return (Some "ami"), mk_world [] [Print "1: ami"; Print "2: coreboot"])
  /\ get_user_selection CONFIGURATIONS "fw2b" (mk_world ["0"; "7"; "-2"; "1"] [])
     = (Return (Some "ami"),
        mk_world []
          (turns 4 [Print "1: ami"; Print "2: coreboot"])).
Proof.
  pose (c := mk_configuration "J3060"
               [ami "FW2B_BSW4L011.bin"; coreboot "protectli_fw2b_v4.9.0.2.rom"]
               flash_command None None).
  destruct (out_of_range_numbers_are_asked_again "fw2b" c ["0"; "7"; "-2"] "1" 1 [] [])
    as [o [Ho [Halone Hafter]]].
  - reflexivity.
  - repeat constructor.
    + exists 0%Z. split; [reflexivity | unfold in_range; simpl; lia].
    + exists 7%Z. split; [reflexivity | unfold in_range; simpl; lia].
    + exists (-2)%Z. split; [reflexivity | unfold in_range; simpl; lia].
  - reflexivity.
  - unfold in_range. simpl. lia.
  - simpl in Ho. injection Ho as <-. split; [exact Halone | exact Hafter].
Defined.

(** C6, as it is stated, fails: the line [2] is not a vendor tag of
    ['fw2b'], yet it is taken as the index of the second image and ends
    the selection step, so the line [1] that follows is never read and the
    result differs from the one [1] gives alone. *)
Lemma a_number_is_taken_as_an_index :
  in_vendors "2" [ami "FW2B_BSW4L011.bin"; coreboot "protectli_fw2b_v4.9.0.2.rom"]
    = false
  /\ get_user_selection CONFIGURATIONS "fw2b" (mk_world ["1"] [])
     = (Return (Some "ami"), mk_world [] [Print "1: ami"; Print "2: coreboot"])
  /\ get_user_selection CONFIGURATIONS "fw2b" (mk_world ["2"; "1"] [])
     = (Return (Some "coreboot"),
        mk_world ["1"] [Print "1: ami"; Print "2: coreboot"])
  /\ fst (get_user_selection CONFIGURATIONS "fw2b" (mk_world ["2"; "1"] []))
     <> fst (get_user_selection CONFIGURATIONS "fw2b" (mk_world ["1"] [])).
Proof.
  repeat split. vm_compute. discriminate.
Qed.

(** A line that is not an integer, a vendor tag included, ends the
    selection step with [ValueError]. *)
Lemma text_is_not_asked_again :
  get_user_selection CONFIGURATIONS "fw2b" (mk_world ["x"; "1"] [])
    = (Raise ValueError, mk_world ["1"] [Print "1: ami"; Print "2: coreboot"])
  /\ get_user_selection CONFIGURATIONS "fw2b" (mk_world ["ami"] [])
     = (Raise ValueError, mk_world [] [Print "1: ami"; Print "2: coreboot"]).
Proof. split; reflexivity. Qed.

(** *** [main] up to the selection *)

Ltac run_main :=
  cbv [main bind ask_hardware emit print ret sys_exit raise lift
       print_supported_products show_debug_info subprocess_run
       get_terminal_width get_version];
  cbn [stdin trace].

Ltac flatten_trace :=
  cbn [stdin trace]; repeat rewrite <- app_assoc; cbn [app stdin trace].

Lemma main_unsupported (env : environment) (cat : catalog) (w : world) :
  supported env = false ->
  main env cat w = UnsupportedDevice env cat w.
Proof.
  unfold supported. intros H. run_main. rewrite H. cbn [negb].
  unfold UnsupportedDevice, banner, listing, newline, device_of.
  now flatten_trace.
Qed.

Lemma main_wrong_mode (env : environment) (cat : catalog) (w : world) :
  supported env = true ->
  bios_mode_of env = "EFI" ->
  main env cat w = WrongBootMode env w.
Proof.
  unfold supported, bios_mode_of. intros H Hmode. run_main.
  rewrite H, Hmode. cbn [negb]. rewrite String.eqb_refl.
  unfold WrongBootMode, banner, device_of.
  now flatten_trace.
Qed.

(** [main] once the selection has returned and the flash has been done. *)
Lemma main_flash (env : environment) (cat : catalog) (w w2 w3 : world)
    (selection : option string) (returncode : Z) :
  supported env = true ->
  bios_mode_of env <> "EFI" ->
  get_user_selection cat (device_of env) (OfferSelection env w)
    = (Return selection, w2) ->
  do_flash env cat (device_of env) selection w2 = (Return returncode, w3) ->
  main env cat w = (Return tt, mk_world (stdin w3) (trace w3 ++ report returncode)).
Proof.
  intros H Hmode Hsel Hflash.
  unfold OfferSelection, banner in Hsel. cbn [app] in Hsel.
  unfold supported, bios_mode_of, device_of in *.
  apply String.eqb_neq in Hmode.
  run_main. rewrite H. cbn [negb]. rewrite Hmode. flatten_trace.
  rewrite Hsel, Hflash.
  unfold report, FlashSucceeded, FlashFailed.
  destruct (returncode =? 0)%Z; cbn [stdin trace]; now flatten_trace.
Qed.

(** [main] when the flash raises. *)
Lemma main_flash_raises (env : environment) (cat : catalog) (w w2 w3 : world)
    (selection : option string) (e : exn) :
  supported env = true ->
  bios_mode_of env <> "EFI" ->
  get_user_selection cat (device_of env) (OfferSelection env w)
    = (Return selection, w2) ->
  do_flash env cat (device_of env) selection w2 = (Raise e, w3) ->
  main env cat w = (Raise e, w3).
Proof.
  intros H Hmode Hsel Hflash.
  unfold OfferSelection, banner in Hsel. cbn [app] in Hsel.
  unfold supported, bios_mode_of, device_of in *.
  apply String.eqb_neq in Hmode.
  run_main. rewrite H. cbn [negb]. rewrite Hmode. flatten_trace.
  now rewrite Hsel, Hflash.
Qed.

(** *** [do_flash] *)

Lemma do_flash_debug (env : environment) (cat : catalog) (model : string)
    (selection : option string) (w : world) :
  Py.truthy (DEBUGMODE env) = true ->
  do_flash env cat model selection w
  = (Return 0%Z,
     mk_world (stdin w)
       (trace w ++ [Print "Not actually flashing, script is in debug mode."])).
Proof. intros H. unfold do_flash. rewrite H. reflexivity. Qed.

Lemma do_flash_spawns (env : environment) (cat : catalog) (model : string)
    (selection file_path : option string) (w : world) :
  Py.truthy (DEBUGMODE env) = false ->
  get_image_path cat model selection = Return file_path ->
  do_flash env cat model selection w
  = (execute env (spawned_command file_path),
     mk_world (stdin w) (trace w ++ [Run (spawned_command file_path)])).
Proof.
  intros H Hpath. unfold do_flash. rewrite H.
  unfold bind, lift. rewrite Hpath.
  cbv [subprocess_run bind emit lift ret]. cbn [stdin trace].
  change (Py.format "vendor/flashrom -p internal -w {0} --ifd -i bios"
            (Py.str_of_optional file_path))
    with (spawned_command file_path).
  now destruct (execute env (spawned_command file_path)).
Qed.

(** With the debug device set, [main] reports a success whatever the
    selection was, without spawning anything. *)
Lemma main_in_debug_mode (env : environment) (cat : catalog) (w w2 : world)
    (selection : option string) :
  supported env = true ->
  bios_mode_of env <> "EFI" ->
  Py.truthy (DEBUGMODE env) = true ->
  get_user_selection cat (device_of env) (OfferSelection env w)
    = (Return selection, w2) ->
  main env cat w
  = (Return tt,
     mk_world (stdin w2)
       (trace w2
        ++ Print "Not actually flashing, script is in debug mode."
           :: FlashSucceeded)).
Proof.
  intros Hsup Hmode Hdebug Hsel.
  rewrite (main_flash env cat w w2 _ selection 0 Hsup Hmode Hsel
             (do_flash_debug env cat _ selection w2 Hdebug)).
  cbn [stdin trace]. now rewrite <- app_assoc.
Qed.

(** *** What the selection step leaves in the trace *)

Lemma spawned_app (a b : list event) : spawned (a ++ b) = spawned a ++ spawned b.
Proof. unfold spawned. apply flat_map_app. Qed.

Lemma spawned_menu (number : nat) (available_options : list bios_image) :
  spawned (menu_from number available_options) = [].
Proof.
  revert number. induction available_options as [| o rest IH]; intros number.
  - reflexivity.
  - cbn [menu_from]. apply IH.
Qed.

Lemma selection_loop_spawns_nothing
    (available_options : list bios_image) (lines : list string) (t : list event) :
  spawned (trace (snd (selection_loop available_options lines t))) = spawned t.
Proof.
  revert t. induction lines as [| line rest IH]; intros t;
    cbn [selection_loop]; rewrite print_options_trace; cbn [snd trace stdin];
    destruct (in_vendors "" available_options); cbn [snd trace];
    try reflexivity.
  - now rewrite spawned_app, spawned_menu, app_nil_r.
  - assert (Ht : spawned (t ++ menu_from 1 available_options) = spawned t)
      by now rewrite spawned_app, spawned_menu, app_nil_r.
    destruct (Py.int line) as [n |]; cbn [snd trace]; [| exact Ht].
    destruct ((0 <? n)%Z && (n <=? Z.of_nat (List.length available_options))%Z).
    + destruct (nth_error available_options (Z.to_nat (n - 1)));
        cbn [snd trace]; exact Ht.
    + rewrite IH. exact Ht.
Qed.

Lemma get_user_selection_spawns_nothing
    (cat : catalog) (device : string) (w : world) :
  spawned (trace (snd (get_user_selection cat device w))) = spawned (trace w).
Proof.
  unfold get_user_selection, bind, lift.
  destruct (lookup cat device) as [c | e]; cbn [snd trace].
  - apply selection_loop_spawns_nothing.
  - reflexivity.
Qed.

Lemma spawned_offer (env : environment) (w : world) :
  spawned (trace (OfferSelection env w)) = spawned (trace w).
Proof.
  unfold OfferSelection, banner. cbn [trace].
  rewrite !spawned_app. cbn. now rewrite app_nil_r.
Qed.

(** *** The listing of supported products *)

Lemma ascii_compare_refl (a : ascii) : Ascii.compare a a = Eq.
Proof. unfold Ascii.compare. apply N.compare_refl. Qed.

Lemma ascii_compare_lt_trans (a b c : ascii) :
  Ascii.compare a b = Lt -> Ascii.compare b c = Lt -> Ascii.compare a c = Lt.
Proof.
  unfold Ascii.compare. rewrite !N.compare_lt_iff. apply N.lt_trans.
Qed.

Lemma ascending_trans (a b c : string) :
  ascending a b -> ascending b c -> ascending a c.
Proof.
  unfold ascending, String.leb. revert b c.
  induction a as [| x a IH]; intros [| y b] [| z c]; cbn [String.compare];
    try easy.
  destruct (Ascii.compare x y) eqn:Exy; try easy;
    destruct (Ascii.compare y z) eqn:Eyz; try easy.
  - apply Ascii.compare_eq_iff in Exy, Eyz. subst.
    rewrite ascii_compare_refl. apply IH.
  - apply Ascii.compare_eq_iff in Exy. subst. now rewrite Eyz.
  - apply Ascii.compare_eq_iff in Eyz. subst. now rewrite Exy.
  - now rewrite (ascii_compare_lt_trans _ _ _ Exy Eyz).
Qed.

Lemma insert_sorted_perm (x : string) (l : list string) :
  Permutation (insert_sorted x l) (x :: l).
Proof.
  induction l as [| y rest IH]; cbn [insert_sorted].
  - apply Permutation_refl.
  - destruct (String.leb x y).
    + apply Permutation_refl.
    + apply perm_trans with (y :: x :: rest).
      * now apply perm_skip.
      * apply perm_swap.
Qed.

Lemma sort_perm (l : list string) : Permutation (sort l) l.
Proof.
  induction l as [| x rest IH]; cbn [sort fold_right].
  - apply perm_nil.
  - apply perm_trans with (x :: sort rest).
    + apply insert_sorted_perm.
    + now apply perm_skip.
Qed.

Lemma insert_sorted_ascending (x : string) (l : list string) :
  StronglySorted ascending l -> StronglySorted ascending (insert_sorted x l).
Proof.
  induction 1 as [| y rest Hrest IH Hall]; cbn [insert_sorted].
  - repeat constructor.
  - destruct (String.leb x y) eqn:E.
    + constructor; [now constructor |].
      constructor; [exact E |].
      eapply Forall_impl; [| exact Hall].
      intros z Hz. now apply ascending_trans with y.
    + constructor; [exact IH |].
      apply (Permutation_Forall (Permutation_sym (insert_sorted_perm x rest))).
      constructor; [| exact Hall].
      destruct (String.leb_total x y) as [H | H]; [congruence | exact H].
Qed.

Lemma sort_ascending (l : list string) : StronglySorted ascending (sort l).
Proof.
  induction l as [| x rest IH]; cbn [sort fold_right].
  - constructor.
  - now apply insert_sorted_ascending.
Qed.

Lemma listing_of_CONFIGURATIONS :
  listing CONFIGURATIONS
  = [ "FW1"; "FW2"; "FW2B"; "FW4A"; "FW4B"; "FW4C"; "FW6A"; "FW6AR"; "FW6B";
      "FW6BR"; "FW6BR2"; "FW6C"; "FW6D"; "FW6E"; "FW6M"; "VP2410"; "VP2410R";
      "VP4630"; "VP4650" ].
Proof. vm_compute. reflexivity. Qed.

(** On every character, [upper] gives the capital the alphabet gives. *)
Lemma upper_is_the_capital (c : ascii) : Py.upper_ascii c = capital c.
Proof. destruct c as [[] [] [] [] [] [] [] []]; reflexivity. Qed.

Lemma supported_products_are_the_keys :
  supported_products = sort (map in_capitals (map fst CONFIGURATIONS)).
Proof. vm_compute. reflexivity. Qed.

(** C5: when the model identifier of the machine is not a key of the
    catalog, [main] ends as an unsupported device: it exits after printing
    the two lines of the apology and then, one per line, the names
    [FW1], [FW2], [FW2B], ... [VP4650].  These names are exactly the keys
    of the catalog put in capitals, each once, and they are in ascending
    lexicographic order. *)
Theorem unsupported_device_lists_catalog_keys
    (env : environment) (s : hardware_model.HardwareSnapshot) (w : world) :
  hw env = hardware_model.snapshot_hardware CONFIGURATIONS s ->
  ~ In (hardware_model.modelId s) (map fst CONFIGURATIONS) ->
  main env CONFIGURATIONS w
    = (Raise SystemExit,
       mk_world (stdin w)
         (trace w ++ banner env ++
          [ Hardware "is_protectli_device";
            Print "Sorry, this is an unsupported device.";
            Print "This tool is used to flash BIOS onto the following Protectli products:";
            Print (String.concat newline supported_products) ]))
  /\ Permutation supported_products (map in_capitals (map fst CONFIGURATIONS))
  /\ StronglySorted ascending supported_products.
Proof.
  intros Hhw Hmiss. split; [| split].
  - rewrite main_unsupported.
    + unfold UnsupportedDevice. now rewrite listing_of_CONFIGURATIONS.
    + unfold supported. rewrite Hhw.
      cbn [hardware_model.snapshot_hardware is_protectli_device].
      destruct (existsb _ _) eqn:E; [| reflexivity].
      apply existsb_eqb_In in E. contradiction.
  - rewrite supported_products_are_the_keys. apply sort_perm.
  - rewrite supported_products_are_the_keys. apply sort_ascending.
Qed.

Lemma unsupported_device_lists_catalog_keys_witness :
  main bench.fw9_env CONFIGURATIONS (bench.typed ["1"])
    = (Raise SystemExit,
       mk_world ["1"]
         (banner bench.fw9_env ++
          [ Hardware "is_protectli_device";
            Print "Sorry, this is an unsupported device.";
            Print "This tool is used to flash BIOS onto the following Protectli products:";
            Print "FW1
FW2
FW2B
FW4A
FW4B
FW4C
FW6A
FW6AR
FW6B
FW6BR
FW6BR2
FW6C
FW6D
FW6E
FW6M
VP2410
VP2410R
VP4630
VP4650" ]))
  /\ Permutation supported_products (map in_capitals (map fst CONFIGURATIONS))
  /\ StronglySorted ascending supported_products.
Proof.
  apply (unsupported_device_lists_catalog_keys bench.fw9_env bench.fw9).
  - reflexivity.
  - intros H. apply existsb_eqb_In in H. discriminate H.
Defined.

(** *** The order of the checks *)

(** C3, as the code has it: when the boot mode reads [EFI], [main] ends
    as [WrongBootMode] if the hardware module reports a supported device,
    and as [UnsupportedDevice] if it does not, since that check comes
    first; either way no input line is read and no process is spawned. *)
Theorem efi_mode_stops_before_selection
    (env : environment) (cat : catalog) (w : world) :
  bios_mode_of env = "EFI" ->
  main env cat w
    = (if supported env then WrongBootMode env w else UnsupportedDevice env cat w)
  /\ stdin (snd (main env cat w)) = stdin w
  /\ spawned (trace (snd (main env cat w))) = spawned (trace w).
Proof.
  intros Hmode.
  assert (Hmain : main env cat w
     = (if supported env then WrongBootMode env w else UnsupportedDevice env cat w)).
  { destruct (supported env) eqn:E.
    - now apply main_wrong_mode.
    - now apply main_unsupported. }
  split; [exact Hmain |]. rewrite Hmain.
  destruct (supported env); unfold WrongBootMode, UnsupportedDevice, banner;
    cbn [snd stdin trace]; (split; [reflexivity |]);
    rewrite !spawned_app; cbn; now rewrite app_nil_r.
Qed.

Lemma efi_mode_stops_before_selection_witness :
  main bench.fw2b_efi_env CONFIGURATIONS (bench.typed ["1"])
    = WrongBootMode bench.fw2b_efi_env (bench.typed ["1"])
  /\ stdin (snd (main bench.fw2b_efi_env CONFIGURATIONS (bench.typed ["1"]))) = ["1"]
  /\ spawned (trace (snd (main bench.fw2b_efi_env CONFIGURATIONS (bench.typed ["1"]))))
     = [].
Proof.
  exact (efi_mode_stops_before_selection
           bench.fw2b_efi_env CONFIGURATIONS (bench.typed ["1"]) eq_refl).
Defined.

(** C3, as it is stated, fails: a machine in EFI mode that the hardware
    module does not report as supported ends as [UnsupportedDevice], not as
    [WrongBootMode]. *)
Lemma efi_mode_on_unsupported_device :
  bios_mode_of bench.stranger_efi_env = "EFI"
  /\ main bench.stranger_efi_env CONFIGURATIONS (bench.typed [])
     = UnsupportedDevice bench.stranger_efi_env CONFIGURATIONS (bench.typed [])
  /\ main bench.stranger_efi_env CONFIGURATIONS (bench.typed [])
     <> WrongBootMode bench.stranger_efi_env (bench.typed []).
Proof.
  split; [reflexivity |].
  split.
  - now apply main_unsupported.
  - rewrite main_unsupported by reflexivity.
    vm_compute. discriminate.
Qed.

(** *** The flash and its report *)

(** The selection step and the report spawn nothing. *)
Lemma spawned_after_selection
    (env : environment) (cat : catalog) (w w2 : world) (selection : option string) :
  get_user_selection cat (device_of env) (OfferSelection env w)
    = (Return selection, w2) ->
  spawned (trace w2) = spawned (trace w).
Proof.
  intros Hsel.
  pose proof (get_user_selection_spawns_nothing cat (device_of env)
                (OfferSelection env w)) as Hquiet.
  now rewrite Hsel, spawned_offer in Hquiet.
Qed.

Lemma spawned_report (returncode : Z) : spawned (report returncode) = [].
Proof. unfold report. now destruct (returncode =? 0)%Z. Qed.

(** [main] from the selection on, when the debug device is unset. *)
Lemma main_after_selection
    (env : environment) (cat : catalog) (w w2 : world)
    (selection file_path : option string) :
  supported env = true ->
  bios_mode_of env <> "EFI" ->
  Py.truthy (DEBUGMODE env) = false ->
  get_user_selection cat (device_of env) (OfferSelection env w)
    = (Return selection, w2) ->
  get_image_path cat (device_of env) selection = Return file_path ->
  main env cat w
  = match execute env (spawned_command file_path) with
    | Return returncode =>
        (Return tt,
         mk_world (stdin w2)
           (trace w2 ++ Run (spawned_command file_path) :: report returncode))
    | Raise e =>
        (Raise e, mk_world (stdin w2) (trace w2 ++ [Run (spawned_command file_path)]))
    end.
Proof.
  intros Hsup Hmode Hdebug Hsel Hpath.
  pose proof (do_flash_spawns env cat (device_of env) selection file_path w2
                Hdebug Hpath) as Hflash.
  destruct (execute env (spawned_command file_path)) as [returncode | e].
  - rewrite (main_flash env cat w w2 _ selection _ Hsup Hmode Hsel Hflash).
    cbn [stdin trace]. now rewrite <- app_assoc.
  - exact (main_flash_raises env cat w w2 _ selection e Hsup Hmode Hsel Hflash).
Qed.

(** [subprocess.run] is called once, and nothing else is. *)
Lemma main_spawns_once
    (env : environment) (cat : catalog) (w w2 : world)
    (selection file_path : option string) :
  supported env = true ->
  bios_mode_of env <> "EFI" ->
  Py.truthy (DEBUGMODE env) = false ->
  get_user_selection cat (device_of env) (OfferSelection env w)
    = (Return selection, w2) ->
  get_image_path cat (device_of env) selection = Return file_path ->
  spawned (trace (snd (main env cat w)))
  = spawned (trace w) ++ [spawned_command file_path].
Proof.
  intros Hsup Hmode Hdebug Hsel Hpath.
  rewrite (main_after_selection env cat w w2 selection file_path
             Hsup Hmode Hdebug Hsel Hpath).
  pose proof (spawned_after_selection env cat w w2 selection Hsel) as Hquiet.
  destruct (execute env (spawned_command file_path)) as [returncode | e];
    cbn [snd trace]; rewrite spawned_app; cbn [spawned flat_map app].
  - fold (spawned (report returncode)).
    now rewrite spawned_report, Hquiet.
  - now rewrite Hquiet.
Qed.

(** C4, as the code has it: once a selection has been made and the debug
    device is unset, [main] calls [subprocess.run] exactly once, with the
    command line as one string.  When that call returns 0 [main] prints
    the success messages; when it returns any other code [main] prints the
    same fixed failure messages, of which the return code is no part; when
    the call raises, as it does when no program has the command line for
    path, [main] ends with that exception and prints neither. *)
Theorem flash_is_reported_as_success_or_failure
    (env : environment) (cat : catalog) (w w2 : world)
    (selection file_path : option string) :
  supported env = true ->
  bios_mode_of env <> "EFI" ->
  Py.truthy (DEBUGMODE env) = false ->
  get_user_selection cat (device_of env) (OfferSelection env w)
    = (Return selection, w2) ->
  get_image_path cat (device_of env) selection = Return file_path ->
  (forall returncode,
     execute env (spawned_command file_path) = Return returncode ->
     main env cat w
     = (Return tt,
        mk_world (stdin w2)
          (trace w2
           ++ Run (spawned_command file_path)
              :: (if (returncode =? 0)%Z then FlashSucceeded else FlashFailed))))
  /\ (forall e,
        execute env (spawned_command file_path) = Raise e ->
        main env cat w
        = (Raise e,
           mk_world (stdin w2) (trace w2 ++ [Run (spawned_command file_path)])))
  /\ spawned (trace (snd (main env cat w)))
     = spawned (trace w) ++ [spawned_command file_path].
Proof.
  intros Hsup Hmode Hdebug Hsel Hpath.
  pose proof (main_after_selection env cat w w2 selection file_path
                Hsup Hmode Hdebug Hsel Hpath) as Hmain.
  split; [| split].
  - intros returncode Hrun. rewrite Hrun in Hmain. exact Hmain.
  - intros e Hrun. rewrite Hrun in Hmain. exact Hmain.
  - now apply (main_spawns_once env cat w w2 selection).
Qed.

Lemma flash_is_reported_as_success_or_failure_witness :
  main (bench.legacy_env "fw2b" 2) CONFIGURATIONS (bench.typed ["2"])
    = (Return tt,
       mk_world []
         (trace (OfferSelection (bench.legacy_env "fw2b" 2) (bench.typed ["2"]))
          ++ [ Print "1: ami"; Print "2: coreboot";
               Run "vendor/flashrom -p internal -w images/protectli_fw2b_v4.9.0.2.rom --ifd -i bios";
               Print "BIOS Flash failed, is this script running with root permissions?";
               Print "Please try again, but if problems persist, please let us know.";
               Print "TODO: Collect info and display instructions on how to submit a Github issue." ]))
  /\ main (bench.posix_env "fw2b") CONFIGURATIONS (bench.typed ["2"])
     = (Raise FileNotFoundError,
        mk_world []
          (trace (OfferSelection (bench.posix_env "fw2b") (bench.typed ["2"]))
           ++ [ Print "1: ami"; Print "2: coreboot";
                Run "vendor/flashrom -p internal -w images/protectli_fw2b_v4.9.0.2.rom --ifd -i bios" ]))
  /\ spawned (trace (snd (main (bench.posix_env "fw2b") CONFIGURATIONS
                            (bench.typed ["2"]))))
     = ["vendor/flashrom -p internal -w images/protectli_fw2b_v4.9.0.2.rom --ifd -i bios"].
Proof.
  assert (Hmode : "Legacy" <> "EFI") by discriminate.
  split; [| split].
  - exact (proj1 (flash_is_reported_as_success_or_failure
             (bench.legacy_env "fw2b" 2) CONFIGURATIONS (bench.typed ["2"])
             (mk_world []
                (trace (OfferSelection (bench.legacy_env "fw2b" 2) (bench.typed ["2"]))
                 ++ [Print "1: ami"; Print "2: coreboot"]))
             (Some "coreboot") (Some "images/protectli_fw2b_v4.9.0.2.rom")
             eq_refl Hmode eq_refl eq_refl eq_refl) 2%Z eq_refl).
  - exact (proj1 (proj2 (flash_is_reported_as_success_or_failure
             (bench.posix_env "fw2b") CONFIGURATIONS (bench.typed ["2"])
             (mk_world []
                (trace (OfferSelection (bench.posix_env "fw2b") (bench.typed ["2"]))
                 ++ [Print "1: ami"; Print "2: coreboot"]))
             (Some "coreboot") (Some "images/protectli_fw2b_v4.9.0.2.rom")
             eq_refl Hmode eq_refl eq_refl eq_refl)) FileNotFoundError eq_refl).
  - exact (proj2 (proj2 (flash_is_reported_as_success_or_failure
             (bench.posix_env "fw2b") CONFIGURATIONS (bench.typed ["2"])
             (mk_world []
                (trace (OfferSelection (bench.posix_env "fw2b") (bench.typed ["2"]))
                 ++ [Print "1: ami"; Print "2: coreboot"]))
             (Some "coreboot") (Some "images/protectli_fw2b_v4.9.0.2.rom")
             eq_refl Hmode eq_refl eq_refl eq_refl))).
Defined.

(** C4, as it is stated, fails: the return codes 1 and 2 of the flash
    executor leave exactly the same result and the same world, so what the
    operator sees does not carry the return code. *)
Lemma return_code_is_not_shown :
  execute (bench.legacy_env "fw2b" 1) "" <> execute (bench.legacy_env "fw2b" 2) ""
  /\ main (bench.legacy_env "fw2b" 1) CONFIGURATIONS (bench.typed ["2"])
     = main (bench.legacy_env "fw2b" 2) CONFIGURATIONS (bench.typed ["2"])
  /\ printed (trace (snd (main (bench.legacy_env "fw2b" 2) CONFIGURATIONS
                            (bench.typed ["2"]))))
     = [ "====================================FlashLi=====================================";
         "---------------------------------Version 1.1.0----------------------------------";
         "Device: fw2b";
         "BIOS Mode: Legacy";
         "Available BIOS:";
         "1: ami";
         "2: coreboot";
         "BIOS Flash failed, is this script running with root permissions?";
         "Please try again, but if problems persist, please let us know.";
         "TODO: Collect info and display instructions on how to submit a Github issue." ].
Proof.
  split; [| split].
  - vm_compute. discriminate.
  - vm_compute. reflexivity.
  - vm_compute. reflexivity.
Qed.

(** *** The image path and the command *)

Lemma get_image_path_of_descriptor
    (model : string) (c : configuration) (b : bios_image) :
  lookup CONFIGURATIONS model = Return c ->
  In b (bios c) ->
  get_image_path CONFIGURATIONS model (Some (vendor b))
  = Return (Some ("images/" ++ file b)%string).
Proof.
  intros Hc Hb. unfold get_image_path. rewrite Hc. f_equal.
  apply first_image_found; [| exact Hb].
  apply supported_model_ok in Hc. apply descriptors_ok_inv in Hc. tauto.
Qed.

(** C1, as the code has it: for a model of the catalog and the vendor tag
    of one of its descriptors, the image path is [images/<file>] of that
    descriptor.  With the debug device unset, [do_flash] calls
    [subprocess.run] once and ends as that call ends; for every model whose
    catalog command is [flash_command] the command line it passes is that
    template with the image path in its slot, whether or not the model
    declares an override.  With the debug device set, as it is in the
    file, nothing is called and 0 is returned. *)
Theorem image_path_and_command
    (env : environment) (model : string) (c : configuration)
    (b : bios_image) (w : world) :
  lookup CONFIGURATIONS model = Return c ->
  In b (bios c) ->
  get_image_path CONFIGURATIONS model (Some (vendor b))
    = Return (Some ("images/" ++ file b)%string)
  /\ (Py.truthy (DEBUGMODE env) = false ->
      command c = flash_command ->
      do_flash env CONFIGURATIONS model (Some (vendor b)) w
      = (execute env (Py.format (command c) ("images/" ++ file b)),
         mk_world (stdin w)
           (trace w ++ [Run (Py.format (command c) ("images/" ++ file b))])))
  /\ (Py.truthy (DEBUGMODE env) = true ->
      do_flash env CONFIGURATIONS model (Some (vendor b)) w
      = (Return 0%Z,
         mk_world (stdin w)
           (trace w ++ [Print "Not actually flashing, script is in debug mode."]))).
Proof.
  intros Hc Hb.
  pose proof (get_image_path_of_descriptor model c b Hc Hb) as Hpath.
  split; [exact Hpath |]. split.
  - intros Hdebug Hcmd. rewrite Hcmd.
    exact (do_flash_spawns env CONFIGURATIONS model _ _ w Hdebug Hpath).
  - intros Hdebug. now apply do_flash_debug.
Qed.

Lemma image_path_and_command_witness :
  get_image_path CONFIGURATIONS "vp4630" (Some "coreboot")
    = Return (Some "images/protectli_vp4630_v1.0.17.rom")
  /\ do_flash (bench.posix_env "fw6d") CONFIGURATIONS "fw6d" (Some "ami")
       (bench.typed [])
     = (Raise FileNotFoundError,
        mk_world []
          [Run "vendor/flashrom -p internal -w images/FW6_all_YKBR6L12.bin --ifd -i bios"])
  /\ do_flash (bench.legacy_debug_env "fw6d") CONFIGURATIONS "fw6d" (Some "ami")
       (bench.typed [])
     = (Return 0%Z,
        mk_world [] [Print "Not actually flashing, script is in debug mode."]).
Proof.
  split; [| split].
  - exact (proj1 (image_path_and_command (bench.legacy_env "vp4630" 0)
                    "vp4630" vp4630 (coreboot "protectli_vp4630_v1.0.17.rom")
                    (bench.typed []) eq_refl (or_intror (or_introl eq_refl)))).
  - exact (proj1 (proj2 (image_path_and_command (bench.posix_env "fw6d")
                    "fw6d"
                    (mk_configuration "8250U" [fw6_ami; fw6_coreboot]
                       flash_command (Some overrider_command) None)
                    fw6_ami (bench.typed []) eq_refl (or_introl eq_refl)))
             eq_refl eq_refl).
  - exact (proj2 (proj2 (image_path_and_command (bench.legacy_debug_env "fw6d")
                    "fw6d"
                    (mk_configuration "8250U" [fw6_ami; fw6_coreboot]
                       flash_command (Some overrider_command) None)
                    fw6_ami (bench.typed []) eq_refl (or_introl eq_refl)))
             eq_refl).
Defined.

(** C1, as it is stated, fails.  With [DEBUGMODE] as it is in the file no
    command is executed at all; with the debug device unset, the command
    for ['vp4630'], which declares no override, is not its catalog
    template with the image path in the slot. *)
Lemma command_is_not_taken_from_the_catalog :
  spawned (trace (snd (main (bench.legacy_debug_env "fw2b") CONFIGURATIONS
                         (bench.typed ["1"]))))
    = []
  /\ lookup CONFIGURATIONS "vp4630" = Return vp4630
  /\ override vp4630 = None
  /\ spawned (trace (snd (main (bench.legacy_env "vp4630" 0) CONFIGURATIONS
                            (bench.typed ["2"]))))
     = ["vendor/flashrom -p internal -w images/protectli_vp4630_v1.0.17.rom --ifd -i bios"]
  /\ Py.format (command vp4630) "images/protectli_vp4630_v1.0.17.rom"
     = "vendor/flashrom -p internal -w images/protectli_vp4630_v1.0.17.rom"
  /\ spawned (trace (snd (main (bench.legacy_env "vp4630" 0) CONFIGURATIONS
                            (bench.typed ["2"]))))
     <> [Py.format (command vp4630) "images/protectli_vp4630_v1.0.17.rom"].
Proof.
  repeat split. vm_compute. discriminate.
Qed.

(** C2, as the code has it: for ['fw6d'] in legacy mode with the debug
    device unset, whichever of the two images is chosen, the one command
    [main] spawns is the default template with the image path in its
    slot, and that is not the override template; nothing [main] reads
    tells which firmware is installed. *)
Theorem fw6d_is_flashed_with_the_default_command
    (env : environment) (w : world) (line : string) (n : Z) (rest : list string) :
  device_of env = "fw6d" ->
  supported env = true ->
  bios_mode_of env <> "EFI" ->
  Py.truthy (DEBUGMODE env) = false ->
  stdin w = line :: rest ->
  Py.int line = Some n ->
  in_range 2 n ->
  exists b,
    nth_error [fw6_ami; fw6_coreboot] (Z.to_nat (n - 1)) = Some b
    /\ spawned (trace (snd (main env CONFIGURATIONS w)))
       = spawned (trace w) ++ [Py.format flash_command ("images/" ++ file b)]
    /\ Py.format flash_command ("images/" ++ file b)
       <> Py.format overrider_command ("images/" ++ file b).
Proof.
  intros Hdev Hsup Hmode Hdebug Hin Hint Hn.
  pose (c := mk_configuration "8250U" [fw6_ami; fw6_coreboot]
               flash_command (Some overrider_command) None).
  assert (Hc : lookup CONFIGURATIONS "fw6d" = Return c) by reflexivity.
  destruct (selection_loop_chosen (bios c) line n rest
              (trace (OfferSelection env w)) eq_refl Hint Hn) as [b [Hb Hsel]].
  exists b. split; [exact Hb |].
  assert (Hpath : get_image_path CONFIGURATIONS (device_of env) (Some (vendor b))
                  = Return (Some ("images/" ++ file b)%string)).
  { rewrite Hdev. apply (get_image_path_of_descriptor "fw6d" c); [exact Hc |].
    now apply nth_error_In in Hb. }
  assert (Hgus : get_user_selection CONFIGURATIONS (device_of env)
                   (OfferSelection env w)
                 = (Return (Some (vendor b)),
                    mk_world rest (trace (OfferSelection env w) ++ menu (bios c)))).
  { rewrite Hdev, (get_user_selection_loop _ _ _ _ Hc).
    cbn [OfferSelection stdin]. rewrite Hin. exact Hsel. }
  split.
  - exact (main_spawns_once env CONFIGURATIONS w _ _ _
             Hsup Hmode Hdebug Hgus Hpath).
  - assert (Hcases : n = 1%Z \/ n = 2%Z) by (unfold in_range in Hn; lia).
    destruct Hcases; subst n; cbn in Hb; injection Hb as <-;
      vm_compute; discriminate.
Qed.

Lemma fw6d_is_flashed_with_the_default_command_witness :
  exists b,
    nth_error [fw6_ami; fw6_coreboot] (Z.to_nat (2 - 1)) = Some b
    /\ spawned (trace (snd (main (bench.legacy_env "fw6d" 0) CONFIGURATIONS
                              (bench.typed ["2"]))))
       = spawned (trace (bench.typed ["2"]))
           ++ [Py.format flash_command ("images/" ++ file b)]
    /\ Py.format flash_command ("images/" ++ file b)
       <> Py.format overrider_command ("images/" ++ file b).
Proof.
  apply (fw6d_is_flashed_with_the_default_command
           (bench.legacy_env "fw6d" 0) (bench.typed ["2"]) "2" 2 []);
    try reflexivity.
  - cbn. discriminate.
  - unfold in_range. simpl. lia.
Defined.

(** C2, as it is stated, fails: ['fw6d'] declares the override template,
    yet when coreboot is requested on it in legacy mode the command is the
    default template, not the override one. *)
Lemma fw6d_override_is_not_used :
  lookup CONFIGURATIONS "fw6d"
    = Return (mk_configuration "8250U" [fw6_ami; fw6_coreboot]
                flash_command (Some overrider_command) None)
  /\ spawned (trace (snd (main (bench.legacy_env "fw6d" 0) CONFIGURATIONS
                            (bench.typed ["2"]))))
     = [Py.format flash_command "images/protectli_all_fw6_vault_kbl_v1.0.14.rom"]
  /\ spawned (trace (snd (main (bench.legacy_env "fw6d" 0) CONFIGURATIONS
                            (bench.typed ["2"]))))
     <> [Py.format overrider_command "images/protectli_all_fw6_vault_kbl_v1.0.14.rom"].
Proof.
  repeat split. vm_compute. discriminate.
Qed.

(** *** The import of the catalog *)

(** What the display lists is the mapping the program is meant to use. *)
Lemma items_of_source : items_of source = CONFIGURATIONS.
Proof. reflexivity. Qed.

(** With a comma after every item the display is accepted. *)
Lemma separated_display_is_accepted :
  parse_display (flat_map comma_after CONFIGURATIONS) = Some CONFIGURATIONS.
Proof. reflexivity. Qed.

Lemma source_is_rejected : parse_display source = None.
Proof. reflexivity. Qed.


(** The check at the top of the script, once the catalog is imported. *)
Lemma root_check
    (env : environment) (tokens : list display_token) (cat : catalog) (w : world) :
  parse_display tokens = Some cat ->
  (geteuid env <> 0%Z -> Py.truthy (DEBUGMODE env) = false ->
   script env tokens w
   = (Raise SystemExit,
      mk_world (stdin w)
        (trace w ++ [Print "Need to be run as root user";
                     Print "Please run: sudo ./main.py"])))
  /\ (geteuid env = 0%Z \/ Py.truthy (DEBUGMODE env) = true ->
      script env tokens w = main env cat w).
Proof.
  intros Hparse. unfold script, bind, import_configurations. rewrite Hparse.
  unfold ret. split.
  - intros Heuid Hdebug. apply Z.eqb_neq in Heuid. rewrite Heuid, Hdebug.
    cbv [negb andb print emit sys_exit raise bind]. cbn [stdin trace].
    now rewrite <- app_assoc.
  - intros [Heuid | Hdebug].
    + rewrite Heuid. reflexivity.
    + rewrite Hdebug. cbn [negb]. now rewrite andb_false_r.
Qed.




(** ** Further properties of the program *)

(** *** [get_image_path] and [do_flash] at their edges *)

(** A model that is not a key of the catalog: [get_image_path] raises
    [KeyError]; [do_flash] lets it through without spawning anything when
    the debug device is unset, and returns 0 all the same when it is
    set. *)
Theorem unknown_model_raises_KeyError
    (env : environment) (cat : catalog) (model : string)
    (requested_bios : option string) (w : world) :
  ~ In model (keys cat) ->
  get_image_path cat model requested_bios = Raise (KeyError model)
  /\ (Py.truthy (DEBUGMODE env) = false ->
      do_flash env cat model requested_bios w = (Raise (KeyError model), w))
  /\ (Py.truthy (DEBUGMODE env) = true ->
      do_flash env cat model requested_bios w
      = (Return 0%Z,
         mk_world (stdin w)
           (trace w ++ [Print "Not actually flashing, script is in debug mode."]))).
Proof.
  intros Hmiss.
  assert (Hpath : get_image_path cat model requested_bios = Raise (KeyError model)).
  { unfold get_image_path. now rewrite lookup_missing. }
  split; [exact Hpath |]. split; intros Hdebug.
  - unfold do_flash. rewrite Hdebug. unfold bind, lift. now rewrite Hpath.
  - now apply do_flash_debug.
Qed.

Lemma unknown_model_raises_KeyError_witness :
  get_image_path CONFIGURATIONS "fw9" (Some "ami") = Raise (KeyError "fw9")
  /\ do_flash (bench.legacy_env "fw9" 0) CONFIGURATIONS "fw9" (Some "ami")
       (bench.typed [])
     = (Raise (KeyError "fw9"), bench.typed [])
  /\ do_flash (bench.legacy_debug_env "fw9") CONFIGURATIONS "fw9" (Some "ami")
       (bench.typed [])
     = (Return 0%Z,
        mk_world [] [Print "Not actually flashing, script is in debug mode."]).
Proof.
  assert (Hmiss : ~ In "fw9" (keys CONFIGURATIONS)).
  { intros H. apply existsb_eqb_In in H. discriminate H. }
  split; [| split].
  - exact (proj1 (unknown_model_raises_KeyError (bench.legacy_env "fw9" 0)
                    CONFIGURATIONS "fw9" (Some "ami") (bench.typed []) Hmiss)).
  - exact (proj1 (proj2 (unknown_model_raises_KeyError (bench.legacy_env "fw9" 0)
                    CONFIGURATIONS "fw9" (Some "ami") (bench.typed []) Hmiss))
             eq_refl).
  - exact (proj2 (proj2 (unknown_model_raises_KeyError (bench.legacy_debug_env "fw9")
                    CONFIGURATIONS "fw9" (Some "ami") (bench.typed []) Hmiss))
             eq_refl).
Defined.

Lemma first_image_skips (pre post : list bios_image) (b : bios_image) :
  ~ In (vendor b) (map vendor pre) ->
  first_image (pre ++ b :: post) (Some (vendor b))
  = Some ("images/" ++ file b)%string.
Proof.
  induction pre as [| image pre IH]; intros Hnot;
    cbn [app first_image str_eq map In] in *.
  - rewrite String.eqb_refl. now rewrite format_images.
  - destruct (String.eqb (vendor image) (vendor b)) eqn:E.
    + apply String.eqb_eq in E. tauto.
    + apply IH. tauto.
Qed.

(** When several images of a model carry the requested vendor, the path
    is the one of the first of them in declaration order. *)
Theorem first_listed_image_wins
    (cat : catalog) (model : string) (c : configuration)
    (pre post : list bios_image) (b : bios_image) :
  lookup cat model = Return c ->
  bios c = pre ++ b :: post ->
  ~ In (vendor b) (map vendor pre) ->
  get_image_path cat model (Some (vendor b))
  = Return (Some ("images/" ++ file b)%string).
Proof.
  intros Hc Hbios Hnot. unfold get_image_path. rewrite Hc, Hbios.
  now rewrite first_image_skips.
Qed.

Lemma first_listed_image_wins_witness :
  get_image_path bench.twin_catalog "fw0" (Some "ami")
  = Return (Some "images/first.bin").
Proof.
  apply (first_listed_image_wins bench.twin_catalog "fw0"
           (mk_configuration "none" [ami "first.bin"; ami "second.bin"]
              flash_command None None)
           [] [ami "second.bin"] (ami "first.bin")).
  - reflexivity.
  - reflexivity.
  - simpl. tauto.
Defined.

Lemma first_image_no_match (images : list bios_image) (requested_bios : option string) :
  (forall b, In b images -> str_eq (vendor b) requested_bios = false) ->
  first_image images requested_bios = None.
Proof.
  induction images as [| image rest IH]; intros Hall; cbn [first_image].
  - reflexivity.
  - rewrite (Hall image) by now left.
    apply IH. intros b Hb. apply Hall. now right.
Qed.

(** [do_flash] does not check that an image was found: when the requested
    value matches no vendor of the model (a string none of the images
    carries, or [None]), [subprocess.run] is still called, with the text
    [None] where the path should be, and [do_flash] ends as that call
    ends. *)
Theorem flash_without_image_passes_None
    (env : environment) (cat : catalog) (model : string) (c : configuration)
    (requested_bios : option string) (w : world) :
  lookup cat model = Return c ->
  (forall b, In b (bios c) -> str_eq (vendor b) requested_bios = false) ->
  Py.truthy (DEBUGMODE env) = false ->
  do_flash env cat model requested_bios w
  = (execute env "vendor/flashrom -p internal -w None --ifd -i bios",
     mk_world (stdin w)
       (trace w ++ [Run "vendor/flashrom -p internal -w None --ifd -i bios"])).
Proof.
  intros Hc Hall Hdebug.
  assert (Hpath : get_image_path cat model requested_bios = Return None).
  { unfold get_image_path. rewrite Hc. now rewrite first_image_no_match. }
  exact (do_flash_spawns env cat model requested_bios None w Hdebug Hpath).
Qed.

Lemma flash_without_image_passes_None_witness :
  do_flash (bench.posix_env "fw2b") CONFIGURATIONS "fw2b" (Some "seabios")
    (bench.typed [])
  = (Raise FileNotFoundError,
     mk_world [] [Run "vendor/flashrom -p internal -w None --ifd -i bios"]).
Proof.
  apply (flash_without_image_passes_None (bench.posix_env "fw2b")
           CONFIGURATIONS "fw2b"
           (mk_configuration "J3060"
              [ami "FW2B_BSW4L011.bin"; coreboot "protectli_fw2b_v4.9.0.2.rom"]
              flash_command None None)).
  - reflexivity.
  - intros b [<- | [<- | []]]; reflexivity.
  - reflexivity.
Defined.

(** *** [get_user_selection] at its edges *)

(** A device that is not a key of the catalog: [KeyError], before anything
    is displayed or read. *)
Theorem selection_for_unknown_device
    (cat : catalog) (device : string) (w : world) :
  ~ In device (keys cat) ->
  get_user_selection cat device w = (Raise (KeyError device), w).
Proof.
  intros Hmiss. unfold get_user_selection, bind, lift.
  now rewrite lookup_missing.
Qed.

Lemma selection_for_unknown_device_witness :
  get_user_selection CONFIGURATIONS "FW2B" (bench.typed ["1"])
  = (Raise (KeyError "FW2B"), bench.typed ["1"]).
Proof.
  apply (selection_for_unknown_device CONFIGURATIONS "FW2B" (bench.typed ["1"])).
  intros H. apply existsb_eqb_In in H. discriminate H.
Defined.

Lemma selection_loop_end_of_input
    (available_options : list bios_image) (t : list event) :
  in_vendors "" available_options = false ->
  selection_loop available_options [] t
  = (Raise EOFError, mk_world [] (t ++ menu available_options)).
Proof.
  intros Hempty. cbn [selection_loop].
  now rewrite Hempty, print_options_trace.
Qed.

Lemma turns_snoc (k : nat) (l : list event) : turns k l ++ l = turns (S k) l.
Proof.
  induction k as [| k IH]; cbn [turns].
  - now rewrite app_nil_r.
  - rewrite <- app_assoc. f_equal. exact IH.
Qed.

(** When the input ends before a number of the menu has been typed, the
    selection step raises [EOFError]; it has displayed the menu once for
    every out-of-range number and once more before the read that failed. *)
Theorem selection_at_end_of_input
    (cat : catalog) (device : string) (c : configuration)
    (invalid : list string) (t : list event) :
  lookup cat device = Return c ->
  in_vendors "" (bios c) = false ->
  Forall (out_of_range (List.length (bios c))) invalid ->
  get_user_selection cat device (mk_world invalid t)
  = (Raise EOFError,
     mk_world [] (t ++ turns (S (List.length invalid)) (menu (bios c)))).
Proof.
  intros Hc Hempty Hall.
  rewrite (get_user_selection_loop _ _ _ _ Hc). cbn [stdin trace].
  rewrite <- (app_nil_r invalid) at 1.
  rewrite selection_loop_skips by assumption.
  rewrite selection_loop_end_of_input by assumption.
  now rewrite <- app_assoc, turns_snoc.
Qed.

Lemma selection_at_end_of_input_witness :
  get_user_selection CONFIGURATIONS "fw1" (mk_world ["2"; "0"] [])
  = (Raise EOFError, mk_world [] [Print "1: ami"; Print "1: ami"; Print "1: ami"]).
Proof.
  apply (selection_at_end_of_input CONFIGURATIONS "fw1"
           (mk_configuration "J1900" [ami "FW1_BTL4A012.bin"] flash_command None None)
           ["2"; "0"] []).
  - reflexivity.
  - reflexivity.
  - repeat constructor.
    + exists 2%Z. split; [reflexivity | unfold in_range; simpl; lia].
    + exists 0%Z. split; [reflexivity | unfold in_range; simpl; lia].
Defined.

Lemma selection_loop_sound
    (available_options : list bios_image) (lines : list string) (t : list event)
    (r : option string) (w' : world) :
  selection_loop available_options lines t = (Return r, w') ->
  match r with
  | Some v => In v (map vendor available_options)
  | None => In "" (map vendor available_options) /\ w' = mk_world lines t
  end.
Proof.
  revert t. induction lines as [| line rest IH]; intros t;
    cbn [selection_loop];
    destruct (in_vendors "" available_options) eqn:Hempty.
  - intros H. injection H as <- <-. split; [| reflexivity].
    now apply in_vendors_In.
  - discriminate.
  - intros H. injection H as <- <-. split; [| reflexivity].
    now apply in_vendors_In.
  - rewrite print_options_trace. cbn [snd trace stdin].
    destruct (Py.int line) as [n |]; [| discriminate].
    destruct ((0 <? n)%Z && (n <=? Z.of_nat (List.length available_options))%Z).
    + destruct (nth_error available_options (Z.to_nat (n - 1))) as [o |] eqn:Hnth;
        [| discriminate].
      intros H. injection H as <- <-.
      apply in_map. now apply nth_error_In in Hnth.
    + intros H. apply IH in H. destruct r as [v |]; [exact H |].
      destruct H as [Hin _]. apply in_vendors_In in Hin. congruence.
Qed.

(** Whatever is typed, a selection that is returned is the vendor of one
    of the images of the device; [None] is returned only when an image has
    the empty string as vendor, and then nothing was displayed or read. *)
Theorem selection_is_a_vendor_of_the_device
    (cat : catalog) (device : string) (w w' : world) (r : option string) :
  get_user_selection cat device w = (Return r, w') ->
  exists c,
    lookup cat device = Return c
    /\ match r with
       | Some v => In v (map vendor (bios c))
       | None => In "" (map vendor (bios c)) /\ w' = w
       end.
Proof.
  unfold get_user_selection, bind, lift.
  destruct (lookup cat device) as [c | e]; [| discriminate].
  intros H. exists c. split; [reflexivity |].
  apply selection_loop_sound in H.
  destruct r; [exact H |]. destruct H as [H ->]. split; [exact H |].
  now destruct w.
Qed.

Lemma selection_is_a_vendor_of_the_device_witness :
  exists c,
    lookup CONFIGURATIONS "fw2b" = Return c
    /\ In "coreboot" (map vendor (bios c)).
Proof.
  exact (selection_is_a_vendor_of_the_device CONFIGURATIONS "fw2b"
           (bench.typed ["5"; "2"; "1"])
           (mk_world ["1"]
              [Print "1: ami"; Print "2: coreboot"; Print "1: ami"; Print "2: coreboot"])
           (Some "coreboot") eq_refl).
Defined.

(** A model without any image: no line is ever accepted, so the
    selection step never returns; on a finite input it ends with
    [ValueError] or [EOFError]. *)
Theorem selection_among_no_image_never_returns
    (cat : catalog) (device : string) (c : configuration) (w : world) :
  lookup cat device = Return c ->
  bios c = [] ->
  exists e w',
    get_user_selection cat device w = (Raise e, w')
    /\ (e = ValueError \/ e = EOFError).
Proof.
  intros Hc Hbios.
  rewrite (get_user_selection_loop _ _ _ _ Hc), Hbios.
  generalize (trace w). induction (stdin w) as [| line rest IH]; intros t.
  - eexists. eexists. split; [reflexivity | now right].
  - cbn [selection_loop in_vendors existsb print_options ret snd trace List.length].
    destruct (Py.int line) as [n |].
    + replace ((0 <? n)%Z && (n <=? Z.of_nat 0)%Z) with false.
      * apply IH.
      * symmetry. apply andb_false_iff.
        destruct (0 <? n)%Z eqn:E; [right | now left].
        apply Z.ltb_lt in E. apply Z.leb_gt. simpl. lia.
    + eexists. eexists. split; [reflexivity | now left].
Qed.

Lemma selection_among_no_image_never_returns_witness :
  exists e w',
    get_user_selection bench.bare_catalog "fw0" (bench.typed ["1"; "0"; "2"])
    = (Raise e, w')
    /\ (e = ValueError \/ e = EOFError).
Proof.
  exact (selection_among_no_image_never_returns bench.bare_catalog "fw0"
           (mk_configuration "none" [] flash_command None None)
           (bench.typed ["1"; "0"; "2"]) eq_refl eq_refl).
Defined.

Lemma selection_loop_frame
    (available_options : list bios_image) (lines : list string) (t : list event) :
  in_vendors "" available_options = false ->
  exists consumed k,
    lines = consumed ++ stdin (snd (selection_loop available_options lines t))
    /\ trace (snd (selection_loop available_options lines t))
       = t ++ turns k (menu available_options)
    /\ (k = List.length consumed
        \/ (k = S (List.length consumed)
            /\ fst (selection_loop available_options lines t) = Raise EOFError)).
Proof.
  intros Hempty. revert t. induction lines as [| line rest IH]; intros t.
  - rewrite selection_loop_end_of_input by assumption.
    exists [], 1. cbn [snd fst stdin trace app turns List.length].
    rewrite app_nil_r. repeat split. right. now split.
  - cbn [selection_loop]. rewrite Hempty, print_options_trace.
    cbn [snd trace stdin]. fold (menu available_options).
    destruct (Py.int line) as [n |].
    + destruct ((0 <? n)%Z && (n <=? Z.of_nat (List.length available_options))%Z).
      * exists [line], 1.
        destruct (nth_error available_options (Z.to_nat (n - 1)));
          cbn [snd fst stdin trace app turns List.length];
          rewrite app_nil_r; repeat split; now left.
      * destruct (IH (t ++ menu available_options)) as (consumed & k & Hin & Htr & Hk).
        exists (line :: consumed), (S k). split; [| split].
        -- cbn [app]. now f_equal.
        -- rewrite Htr. cbn [turns]. now rewrite <- app_assoc.
        -- cbn [List.length]. destruct Hk as [-> | [-> Heof]]; [now left |].
           right. now split.
    + exists [line], 1. cbn [snd fst stdin trace app turns List.length].
      rewrite app_nil_r. repeat split. now left.
Qed.

(** The selection step reads the lines of the input in order and leaves
    the rest untouched; all it displays is whole menus, one for every line
    it has read, and one more when it stops at the end of the input. *)
Theorem selection_reads_a_prefix_and_prints_menus
    (cat : catalog) (device : string) (c : configuration) (w : world) :
  lookup cat device = Return c ->
  in_vendors "" (bios c) = false ->
  exists consumed k,
    stdin w = consumed ++ stdin (snd (get_user_selection cat device w))
    /\ trace (snd (get_user_selection cat device w))
       = trace w ++ turns k (menu (bios c))
    /\ (k = List.length consumed
        \/ (k = S (List.length consumed)
            /\ fst (get_user_selection cat device w) = Raise EOFError)).
Proof.
  intros Hc Hempty. rewrite (get_user_selection_loop _ _ _ _ Hc).
  now apply selection_loop_frame.
Qed.

Lemma selection_reads_a_prefix_and_prints_menus_witness :
  exists consumed k,
    ["0"; "x"; "1"]
    = consumed ++ stdin (snd (get_user_selection CONFIGURATIONS "fw1"
                                (bench.typed ["0"; "x"; "1"])))
    /\ trace (snd (get_user_selection CONFIGURATIONS "fw1"
                     (bench.typed ["0"; "x"; "1"])))
       = [] ++ turns k [Print "1: ami"]
    /\ (k = List.length consumed
        \/ (k = S (List.length consumed)
            /\ fst (get_user_selection CONFIGURATIONS "fw1"
                      (bench.typed ["0"; "x"; "1"]))
               = Raise EOFError)).
Proof.
  exact (selection_reads_a_prefix_and_prints_menus CONFIGURATIONS "fw1"
           (mk_configuration "J1900" [ami "FW1_BTL4A012.bin"] flash_command None None)
           (bench.typed ["0"; "x"; "1"]) eq_refl eq_refl).
Defined.

(** *** The listing, whatever the order of the catalog *)

Lemma ascending_head_least (x : string) (l : list string) :
  StronglySorted ascending (x :: l) -> forall y, In y (x :: l) -> ascending x y.
Proof.
  intros Hs y [<- | Hy].
  - unfold ascending. destruct (String.leb_total x x); assumption.
  - apply StronglySorted_inv in Hs as [_ Hall].
    rewrite Forall_forall in Hall. now apply Hall.
Qed.

Lemma ascending_permutations_agree (l l' : list string) :
  StronglySorted ascending l -> StronglySorted ascending l' ->
  Permutation l l' -> l = l'.
Proof.
  revert l'. induction l as [| x l IH]; intros l' Hs Hs' Hp.
  - apply Permutation_nil in Hp. now subst.
  - destruct l' as [| y l'].
    + apply Permutation_sym, Permutation_nil in Hp. discriminate.
    + assert (x = y) as <-.
      { apply String.leb_antisym.
        - apply (ascending_head_least x l Hs).
          apply (Permutation_in _ (Permutation_sym Hp)). now left.
        - apply (ascending_head_least y l' Hs').
          apply (Permutation_in _ Hp). now left. }
      f_equal. apply IH.
      * now apply StronglySorted_inv in Hs.
      * now apply StronglySorted_inv in Hs'.
      * now apply Permutation_cons_inv in Hp.
Qed.

(** Any arrangement of the names in ascending order is the one [sort]
    computes: the result of sorting is determined by the names alone, not
    by how the sort proceeds. *)
Theorem sort_gives_the_ascending_arrangement (l l' : list string) :
  Permutation l' l ->
  StronglySorted ascending l' ->
  l' = sort l.
Proof.
  intros Hp Hs. apply ascending_permutations_agree.
  - exact Hs.
  - apply sort_ascending.
  - apply perm_trans with l; [exact Hp | apply Permutation_sym, sort_perm].
Qed.

Lemma sort_gives_the_ascending_arrangement_witness :
  ["FW1"; "FW2"; "FW2B"] = sort ["FW2"; "FW2B"; "FW1"].
Proof.
  apply (sort_gives_the_ascending_arrangement ["FW2"; "FW2B"; "FW1"]
           ["FW1"; "FW2"; "FW2B"]).
  - apply Permutation_sym.
    apply perm_trans with ["FW2"; "FW1"; "FW2B"].
    + apply perm_skip. apply perm_swap.
    + apply perm_swap.
  - repeat constructor.
Defined.

(** The listing of supported products does not depend on the order in
    which the catalog declares its models. *)
Theorem listing_ignores_declaration_order (cat cat' : catalog) (w : world) :
  Permutation (keys cat) (keys cat') ->
  print_supported_products cat w = print_supported_products cat' w.
Proof.
  intros Hp. unfold print_supported_products. do 2 f_equal.
  apply ascending_permutations_agree; try apply sort_ascending.
  apply perm_trans with (map Py.upper (keys cat)); [apply sort_perm |].
  apply perm_trans with (map Py.upper (keys cat')).
  - now apply Permutation_map.
  - apply Permutation_sym, sort_perm.
Qed.

Lemma listing_ignores_declaration_order_witness :
  print_supported_products CONFIGURATIONS (bench.typed [])
  = print_supported_products (rev CONFIGURATIONS) (bench.typed []).
Proof.
  apply (listing_ignores_declaration_order CONFIGURATIONS (rev CONFIGURATIONS)).
  unfold keys. rewrite map_rev. apply Permutation_rev.
Defined.

(** *** [main] as a whole *)

Lemma main_selection_raises (env : environment) (cat : catalog) (w w2 : world)
    (e : exn) :
  supported env = true ->
  bios_mode_of env <> "EFI" ->
  get_user_selection cat (device_of env) (OfferSelection env w) = (Raise e, w2) ->
  main env cat w = (Raise e, w2).
Proof.
  intros H Hmode Hsel.
  unfold OfferSelection, banner in Hsel. cbn [app] in Hsel.
  unfold supported, bios_mode_of, device_of in *.
  apply String.eqb_neq in Hmode.
  run_main. rewrite H. cbn [negb]. rewrite Hmode. flatten_trace.
  now rewrite Hsel.
Qed.

Lemma get_user_selection_returns_known (cat : catalog) (device : string)
    (w w' : world) (r : option string) :
  get_user_selection cat device w = (Return r, w') ->
  exists c, lookup cat device = Return c
            /\ selection_loop (bios c) (stdin w) (trace w) = (Return r, w').
Proof.
  unfold get_user_selection, bind, lift.
  destruct (lookup cat device) as [c | e]; [| discriminate].
  intros H. now exists c.
Qed.

(** The ways [main] can end. *)
Lemma main_cases (env : environment) (cat : catalog) (w : world) :
  main env cat w = UnsupportedDevice env cat w
  \/ main env cat w = WrongBootMode env w
  \/ (exists e w2,
        get_user_selection cat (device_of env) (OfferSelection env w) = (Raise e, w2)
        /\ main env cat w = (Raise e, w2))
  \/ (exists selection w2,
        get_user_selection cat (device_of env) (OfferSelection env w)
          = (Return selection, w2)
        /\ Py.truthy (DEBUGMODE env) = true
        /\ main env cat w
           = (Return tt,
              mk_world (stdin w2)
                (trace w2
                 ++ Print "Not actually flashing, script is in debug mode."
                    :: FlashSucceeded)))
  \/ (exists selection w2 c,
        get_user_selection cat (device_of env) (OfferSelection env w)
          = (Return selection, w2)
        /\ Py.truthy (DEBUGMODE env) = false
        /\ lookup cat (device_of env) = Return c
        /\ selection_loop (bios c) (stdin w)
             (trace (OfferSelection env w)) = (Return selection, w2)
        /\ exists tail,
             main env cat w
             = (fst (main env cat w),
                mk_world (stdin w2)
                  (trace w2
                   ++ Run (spawned_command (first_image (bios c) selection))
                      :: map Print tail))).
Proof.
  destruct (supported env) eqn:Hsup; [| left; now apply main_unsupported].
  destruct (String.eqb_spec (bios_mode_of env) "EFI") as [Hmode | Hmode];
    [right; left; now apply main_wrong_mode |].
  destruct (get_user_selection cat (device_of env) (OfferSelection env w))
    as [[selection | e] w2] eqn:Hsel.
  - destruct (Py.truthy (DEBUGMODE env)) eqn:Hdebug.
    + right; right; right; left. exists selection, w2.
      split; [reflexivity |]. split; [reflexivity |].
      now apply (main_in_debug_mode env cat w w2 selection).
    + right; right; right; right.
      destruct (get_user_selection_returns_known _ _ _ _ _ Hsel) as [c [Hc Hloop]].
      exists selection, w2, c.
      assert (Hpath : get_image_path cat (device_of env) selection
                      = Return (first_image (bios c) selection)).
      { unfold get_image_path. now rewrite Hc. }
      split; [reflexivity |]. split; [reflexivity |]. split; [exact Hc |].
      split; [exact Hloop |].
      rewrite (main_after_selection env cat w w2 selection _
                 Hsup Hmode Hdebug Hsel Hpath).
      destruct (execute env (spawned_command (first_image (bios c) selection)))
        as [returncode | e]; cbn [fst].
      * unfold report, FlashSucceeded, FlashFailed.
        destruct (returncode =? 0)%Z;
          [ exists [ "Flash completed and successful.";
                     "Please restart your device." ]
          | exists [ "BIOS Flash failed, is this script running with root permissions?";
                     "Please try again, but if problems persist, please let us know.";
                     "TODO: Collect info and display instructions on how to submit a Github issue." ] ];
          reflexivity.
      * exists []. reflexivity.
  - right; right; left. exists e, w2. split; [reflexivity |].
    now apply main_selection_raises.
Qed.

Lemma shelled_app (a b : list event) : shelled (a ++ b) = shelled a ++ shelled b.
Proof. unfold shelled. apply flat_map_app. Qed.

Lemma spawned_prints (texts : list string) : spawned (map Print texts) = [].
Proof. induction texts as [| x rest IH]; [reflexivity | exact IH]. Qed.

Lemma shelled_prints (texts : list string) : shelled (map Print texts) = [].
Proof. induction texts as [| x rest IH]; [reflexivity | exact IH]. Qed.

Lemma menu_from_prints (number : nat) (available_options : list bios_image) :
  exists texts, menu_from number available_options = map Print texts.
Proof.
  revert number. induction available_options as [| o rest IH]; intros number.
  - now exists [].
  - destruct (IH (S number)) as [texts Htexts].
    exists ((Py.str_of_nat number ++ ": " ++ vendor o)%string :: texts).
    cbn [menu_from map]. now rewrite Htexts.
Qed.

(** All the selection step adds to the trace is printed text. *)
Lemma selection_loop_only_prints
    (available_options : list bios_image) (lines : list string) (t : list event) :
  exists texts,
    trace (snd (selection_loop available_options lines t)) = t ++ map Print texts.
Proof.
  destruct (menu_from_prints 1 available_options) as [menu_texts Hmenu].
  revert t. induction lines as [| line rest IH]; intros t;
    cbn [selection_loop]; rewrite print_options_trace; cbn [snd trace stdin];
    rewrite Hmenu;
    destruct (in_vendors "" available_options); cbn [snd trace];
    try (exists []; now rewrite app_nil_r);
    try (now exists menu_texts).
  destruct (Py.int line) as [n |]; cbn [snd trace]; [| now exists menu_texts].
  destruct ((0 <? n)%Z && (n <=? Z.of_nat (List.length available_options))%Z).
  - destruct (nth_error available_options (Z.to_nat (n - 1)));
      cbn [snd trace]; now exists menu_texts.
  - rewrite <- Hmenu.
    destruct (IH (t ++ menu_from 1 available_options)) as [texts Htexts].
    exists (menu_texts ++ texts).
    rewrite Htexts, Hmenu, map_app. now rewrite <- app_assoc.
Qed.

Lemma selection_only_prints (cat : catalog) (device : string) (w : world) :
  exists texts,
    trace (snd (get_user_selection cat device w)) = trace w ++ map Print texts.
Proof.
  unfold get_user_selection, bind, lift.
  destruct (lookup cat device) as [c | e]; cbn [snd trace].
  - apply selection_loop_only_prints.
  - exists []. now rewrite app_nil_r.
Qed.

Lemma shelled_offer (env : environment) (w : world) :
  shelled (trace (OfferSelection env w)) = shelled (trace w) ++ clear_screen.
Proof.
  unfold OfferSelection, banner, clear_screen. cbn [trace].
  rewrite !shelled_app. cbn. now rewrite ?app_nil_r.
Qed.

Lemma selection_shells_nothing (cat : catalog) (env : environment) (w w2 : world)
    (r : result (option string)) :
  get_user_selection cat (device_of env) (OfferSelection env w) = (r, w2) ->
  shelled (trace w2) = shelled (trace w) ++ clear_screen.
Proof.
  intros Hsel.
  destruct (selection_only_prints cat (device_of env) (OfferSelection env w))
    as [texts Htexts].
  rewrite Hsel in Htexts. cbn [snd] in Htexts.
  now rewrite Htexts, shelled_app, shelled_prints, app_nil_r, shelled_offer.
Qed.

(** [main] clears the screen once, on every path. *)
Lemma main_shelled (env : environment) (cat : catalog) (w : world) :
  shelled (trace (snd (main env cat w))) = shelled (trace w) ++ clear_screen.
Proof.
  destruct (main_cases env cat w)
    as [H | [H | [(e & w2 & Hsel & H) | [(sel & w2 & Hsel & _ & H)
          | (sel & w2 & c & Hsel & _ & _ & _ & tail & H)]]]];
    rewrite H; cbn [snd trace].
  - unfold UnsupportedDevice, banner. cbn [snd trace].
    rewrite !shelled_app. cbn. now rewrite ?app_nil_r.
  - unfold WrongBootMode, banner. cbn [snd trace].
    rewrite !shelled_app. cbn. now rewrite ?app_nil_r.
  - exact (selection_shells_nothing _ _ _ _ _ Hsel).
  - rewrite shelled_app. cbn. rewrite ?app_nil_r.
    exact (selection_shells_nothing _ _ _ _ _ Hsel).
  - rewrite shelled_app. cbn [shelled flat_map app].
    fold (shelled (map Print tail)). rewrite shelled_prints, app_nil_r.
    exact (selection_shells_nothing _ _ _ _ _ Hsel).
Qed.

Lemma spawned_banner_then (env : environment) (t rest : list event) :
  spawned rest = [] ->
  spawned (t ++ banner env ++ rest) = spawned t.
Proof.
  intros H. rewrite !spawned_app, H. unfold banner. cbn.
  now rewrite app_nil_r.
Qed.

Lemma selection_quiet (cat : catalog) (env : environment) (w w2 : world)
    (r : result (option string)) :
  get_user_selection cat (device_of env) (OfferSelection env w) = (r, w2) ->
  spawned (trace w2) = spawned (trace w).
Proof.
  intros Hsel.
  pose proof (get_user_selection_spawns_nothing cat (device_of env)
                (OfferSelection env w)) as Hquiet.
  now rewrite Hsel, spawned_offer in Hquiet.
Qed.

(** What [main] hands to [subprocess.run], in every case. *)
Lemma main_spawned (env : environment) (cat : catalog) (w : world) :
  spawned (trace (snd (main env cat w))) = spawned (trace w)
  \/ (Py.truthy (DEBUGMODE env) = false
      /\ exists selection w2 c,
           lookup cat (device_of env) = Return c
           /\ selection_loop (bios c) (stdin w)
                (trace (OfferSelection env w)) = (Return selection, w2)
           /\ spawned (trace (snd (main env cat w)))
              = spawned (trace w)
                ++ [spawned_command (first_image (bios c) selection)]).
Proof.
  destruct (main_cases env cat w)
    as [H | [H | [(e & w2 & Hsel & H) | [(sel & w2 & Hsel & _ & H)
          | (sel & w2 & c & Hsel & Hno & Hc & Hloop & tail & H)]]]];
    rewrite H; cbn [snd trace].
  - left. unfold UnsupportedDevice. cbn [snd trace]. now apply spawned_banner_then.
  - left. unfold WrongBootMode. cbn [snd trace]. now apply spawned_banner_then.
  - left. exact (selection_quiet _ _ _ _ _ Hsel).
  - left. rewrite spawned_app. cbn. rewrite app_nil_r.
    exact (selection_quiet _ _ _ _ _ Hsel).
  - right. split; [exact Hno |]. exists sel, w2, c.
    split; [exact Hc |]. split; [exact Hloop |].
    rewrite spawned_app. cbn [spawned flat_map app].
    fold (spawned (map Print tail)). rewrite spawned_prints.
    now rewrite (selection_quiet _ _ _ _ _ Hsel).
Qed.

(** With the debug device set, [main] never calls [subprocess.run],
    whatever the catalog, the machine and the input are: the one command
    it has executed is the [os.system] call that clears the screen. *)
Theorem debug_mode_only_clears_the_screen
    (env : environment) (cat : catalog) (w : world) :
  Py.truthy (DEBUGMODE env) = true ->
  spawned (trace (snd (main env cat w))) = spawned (trace w)
  /\ shelled (trace (snd (main env cat w))) = shelled (trace w) ++ ["/bin/clear"].
Proof.
  intros Hdebug. split.
  - destruct (main_spawned env cat w) as [H | [Hno _]].
    + exact H.
    + rewrite Hdebug in Hno. discriminate Hno.
  - apply main_shelled.
Qed.

Lemma debug_mode_only_clears_the_screen_witness :
  spawned (trace (snd (main (bench.legacy_debug_env "vp4630") CONFIGURATIONS
                         (bench.typed ["0"; "2"]))))
    = []
  /\ shelled (trace (snd (main (bench.legacy_debug_env "vp4630") CONFIGURATIONS
                            (bench.typed ["0"; "2"]))))
     = ["/bin/clear"].
Proof.
  exact (debug_mode_only_clears_the_screen (bench.legacy_debug_env "vp4630")
           CONFIGURATIONS (bench.typed ["0"; "2"]) eq_refl).
Defined.

(** Whatever the catalog, the machine and the input are, [main] executes
    [/bin/clear] through [os.system] exactly once and calls
    [subprocess.run] at most once, with the fixed template holding the
    value of [get_image_path] in its slot: there is no second attempt on
    any path. *)
Theorem main_clears_once_and_flashes_at_most_once
    (env : environment) (cat : catalog) (w : world) :
  shelled (trace (snd (main env cat w))) = shelled (trace w) ++ ["/bin/clear"]
  /\ (spawned (trace (snd (main env cat w))) = spawned (trace w)
      \/ exists selection file_path,
           get_image_path cat (device_of env) selection = Return file_path
           /\ spawned (trace (snd (main env cat w)))
              = spawned (trace w) ++ [spawned_command file_path]).
Proof.
  split; [apply main_shelled |].
  destruct (main_spawned env cat w)
    as [H | [_ (sel & w2 & c & Hc & _ & H)]].
  - now left.
  - right. exists sel, (first_image (bios c) sel). split; [| exact H].
    unfold get_image_path. now rewrite Hc.
Qed.

(** On the catalog of the file, whatever the machine, the debug device
    and the input are, the only call of [subprocess.run] that [main] can
    make passes the fixed template with [images/<file>] of one of the
    images of the device itself: never the path of an image of another
    model, nor a missing path. *)
Theorem the_flash_is_for_an_image_of_the_device
    (env : environment) (w : world) :
  spawned (trace (snd (main env CONFIGURATIONS w))) = spawned (trace w)
  \/ exists c b,
       lookup CONFIGURATIONS (device_of env) = Return c
       /\ In b (bios c)
       /\ spawned (trace (snd (main env CONFIGURATIONS w)))
          = spawned (trace w) ++ [Py.format flash_command ("images/" ++ file b)].
Proof.
  destruct (main_spawned env CONFIGURATIONS w)
    as [H | [_ (sel & w2 & c & Hc & Hloop & H)]]; [now left | right].
  pose proof (selection_loop_sound _ _ _ _ _ Hloop) as Hsound.
  pose proof (supported_model_ok _ _ Hc) as Hok.
  apply descriptors_ok_inv in Hok as (_ & Hdistinct & Hempty).
  destruct sel as [v |].
  - apply in_map_iff in Hsound as [b [<- Hb]].
    exists c, b. split; [exact Hc |]. split; [exact Hb |].
    rewrite H. now rewrite (first_image_found (bios c) b Hdistinct Hb).
  - destruct Hsound as [Hin _]. apply in_vendors_In in Hin. congruence.
Qed.

(** An ASCII line that is not a decimal integer, typed at the menu, ends
    [main] with [ValueError] right after the first display of the menu,
    debug device set or not: the line is consumed, [subprocess.run] is not
    called and no report is printed. *)
Theorem text_at_the_menu_ends_main
    (env : environment) (cat : catalog) (c : configuration) (w : world)
    (line : string) (rest : list string) :
  supported env = true ->
  bios_mode_of env <> "EFI" ->
  lookup cat (device_of env) = Return c ->
  in_vendors "" (bios c) = false ->
  stdin w = line :: rest ->
  Py.is_ascii line = true ->
  Py.int line = None ->
  main env cat w
  = (Raise ValueError,
     mk_world rest (trace (OfferSelection env w) ++ menu (bios c))).
Proof.
  intros Hsup Hmode Hc Hempty Hin _ Hint.
  apply main_selection_raises; try assumption.
  rewrite (get_user_selection_loop _ _ _ _ Hc).
  cbn [OfferSelection stdin]. rewrite Hin.
  now apply selection_loop_not_an_integer.
Qed.

Lemma text_at_the_menu_ends_main_witness :
  main (bench.legacy_env "fw2b" 0) CONFIGURATIONS (bench.typed ["coreboot"; "2"])
  = (Raise ValueError,
     mk_world ["2"]
       (trace (OfferSelection (bench.legacy_env "fw2b" 0)
                 (bench.typed ["coreboot"; "2"]))
        ++ [Print "1: ami"; Print "2: coreboot"])).
Proof.
  apply (text_at_the_menu_ends_main (bench.legacy_env "fw2b" 0) CONFIGURATIONS
           (mk_configuration "J3060"
              [ami "FW2B_BSW4L011.bin"; coreboot "protectli_fw2b_v4.9.0.2.rom"]
              flash_command None None)
           (bench.typed ["coreboot"; "2"]) "coreboot" ["2"]);
    try reflexivity.
  cbn. discriminate.
Defined.

(** A device the hardware module reports as supported but that is not a
    key of the catalog: in legacy mode [main] ends with [KeyError] once the
    selection is to be offered, before any menu or read. *)
Theorem supported_device_missing_from_catalog
    (env : environment) (cat : catalog) (w : world) :
  supported env = true ->
  bios_mode_of env <> "EFI" ->
  ~ In (device_of env) (keys cat) ->
  main env cat w = (Raise (KeyError (device_of env)), OfferSelection env w).
Proof.
  intros Hsup Hmode Hmiss.
  apply main_selection_raises; try assumption.
  unfold get_user_selection, bind, lift. now rewrite lookup_missing.
Qed.

Lemma supported_device_missing_from_catalog_witness :
  main (bench.legacy_env "FW2B" 0) CONFIGURATIONS (bench.typed ["1"])
  = (Raise (KeyError "FW2B"),
     OfferSelection (bench.legacy_env "FW2B" 0) (bench.typed ["1"])).
Proof.
  apply (supported_device_missing_from_catalog (bench.legacy_env "FW2B" 0)
           CONFIGURATIONS (bench.typed ["1"])).
  - reflexivity.
  - cbn. discriminate.
  - intros H. apply existsb_eqb_In in H. discriminate H.
Defined.

(** *** The check for the root user *)

(** For a user who is not root the script never calls [subprocess.run],
    whatever the display, the machine and the input are.  With the debug
    device unset it exits at the check and executes nothing at all; with
    it set, [main] runs and the one command executed is [/bin/clear]. *)
Theorem an_ordinary_user_never_reaches_the_flash
    (env : environment) (tokens : list display_token) (w : world) :
  geteuid env <> 0%Z ->
  spawned (trace (snd (script env tokens w))) = spawned (trace w)
  /\ shelled (trace (snd (script env tokens w)))
     = shelled (trace w)
       ++ match parse_display tokens with
          | Some _ => if Py.truthy (DEBUGMODE env) then ["/bin/clear"] else []
          | None => []
          end.
Proof.
  intros Heuid.
  destruct (parse_display tokens) as [cat |] eqn:Hparse.
  - destruct (root_check env tokens cat w Hparse) as [Hexit Hmain].
    destruct (Py.truthy (DEBUGMODE env)) eqn:Hdebug.
    + rewrite Hmain by now right. split; [| apply main_shelled].
      destruct (main_spawned env cat w) as [H | [Hno _]]; [exact H | congruence].
    + rewrite Hexit by easy. cbn [snd trace].
      rewrite spawned_app, shelled_app. cbn. now rewrite !app_nil_r.
  - unfold script, bind, import_configurations. rewrite Hparse.
    cbn [snd raise]. now rewrite app_nil_r.
Qed.

Lemma an_ordinary_user_never_reaches_the_flash_witness :
  spawned (trace (snd (script (bench.user_env "fw2b")
                         (flat_map comma_after CONFIGURATIONS)
                         (bench.typed ["2"]))))
    = []
  /\ shelled (trace (snd (script (bench.user_env "fw2b")
                            (flat_map comma_after CONFIGURATIONS)
                            (bench.typed ["2"]))))
     = ["/bin/clear"].
Proof.
  apply (an_ordinary_user_never_reaches_the_flash (bench.user_env "fw2b")
           (flat_map comma_after CONFIGURATIONS) (bench.typed ["2"])).
  cbn. discriminate.
Defined.

(** *** The catalog as a mapping *)

Lemma lookup_of_item (cat : catalog) (k : string) (c : configuration) :
  NoDup (keys cat) -> In (k, c) cat -> lookup cat k = Return c.
Proof.
  induction cat as [| [k' c'] rest IH]; cbn [keys map fst In lookup];
    intros Hd Hin.
  - contradiction.
  - inversion Hd as [| ? ? Hnotin Hrest]; subst.
    destruct Hin as [Heq | Hin].
    + injection Heq as -> ->. now rewrite String.eqb_refl.
    + destruct (String.eqb k' k) eqn:E.
      * apply String.eqb_eq in E. subst. exfalso. apply Hnotin.
        change k with (fst (k, c)). now apply in_map.
      * now apply IH.
Qed.

(** In a catalog that declares no key twice, every item is what its key
    maps to, and a key maps to nothing else: no item hides another.  The
    catalog of the file is such a catalog. *)
Theorem every_item_is_reachable (cat : catalog) (k : string) (c : configuration) :
  NoDup (keys cat) ->
  (In (k, c) cat <-> lookup cat k = Return c).
Proof.
  intros Hd. split.
  - now apply lookup_of_item.
  - apply lookup_In.
Qed.

Lemma every_item_is_reachable_witness :
  NoDup (keys CONFIGURATIONS)
  /\ (In ("vp4650", vp4650) CONFIGURATIONS
      <-> lookup CONFIGURATIONS "vp4650" = Return vp4650).
Proof.
  assert (Hd : NoDup (keys CONFIGURATIONS))
    by (apply distinct_NoDup; reflexivity).
  split; [exact Hd |].
  exact (every_item_is_reachable CONFIGURATIONS "vp4650" vp4650 Hd).
Defined.

(** *** The numbers of the menu *)

Lemma digits_of_uint (d : Decimal.uint) (acc : nat) :
  Py.digits (Z.of_nat acc) true (NilEmpty.string_of_uint d)
  = Some (Z.of_nat (Nat.of_uint_acc d acc)).
Proof.
  revert acc. induction d; intros acc;
    cbn [NilEmpty.string_of_uint Nat.of_uint_acc Py.digits];
    try reflexivity;
    (match goal with
     | |- context [Py.digit_of ?ch] =>
         change (Py.digit_of ch) with (Some (Z.of_nat (nat_of_ascii ch - 48)))
     end);
    rewrite <- IHd; f_equal; rewrite Nat.tail_mul_spec;
    (match goal with
     | |- context [(nat_of_ascii ?ch - 48)%nat] =>
         let v := eval vm_compute in (nat_of_ascii ch - 48)%nat in
         change (nat_of_ascii ch - 48)%nat with v
     end); lia.
Qed.

Lemma to_uint_not_Nil (n : nat) : Nat.to_uint n <> Decimal.Nil.
Proof.
  intros H. pose proof (DecimalNat.Unsigned.of_to n) as Hn.
  rewrite H in Hn. cbn in Hn. subst n. discriminate H.
Qed.

(** [int(str(n)) == n] for the numbers of the menu. *)
Lemma int_of_str (n : nat) : Py.int (Py.str_of_nat n) = Some (Z.of_nat n).
Proof.
  unfold Py.str_of_nat.
  rewrite <- (DecimalNat.Unsigned.of_to n) at 2.
  pose proof (to_uint_not_Nil n) as Hnil.
  unfold Nat.of_uint.
  destruct (Nat.to_uint n) as [| d | d | d | d | d | d | d | d | d | d];
    [contradiction | ..];
    cbn [NilEmpty.string_of_uint Nat.of_uint_acc];
    unfold Py.int; cbn [Py.lstrip];
    (match goal with
     | |- context [Py.is_space ?ch] => change (Py.is_space ch) with false
     end); cbv iota;
    cbn [Py.digits];
    (match goal with
     | |- context [Py.digit_of ?ch] =>
         change (Py.digit_of ch) with (Some (Z.of_nat (nat_of_ascii ch - 48)))
     end);
    rewrite <- digits_of_uint; f_equal;
    (match goal with
     | |- context [(nat_of_ascii ?ch - 48)%nat] =>
         let v := eval vm_compute in (nat_of_ascii ch - 48)%nat in
         change (nat_of_ascii ch - 48)%nat with v
     end); rewrite ?Nat.tail_mul_spec; lia.
Qed.

Lemma menu_from_nth (number i : nat) (available_options : list bios_image)
    (b : bios_image) :
  nth_error available_options i = Some b ->
  nth_error (menu_from number available_options) i
  = Some (Print (Py.str_of_nat (number + i) ++ ": " ++ vendor b)%string).
Proof.
  revert number i. induction available_options as [| o rest IH];
    intros number [| i]; cbn [nth_error menu_from]; try discriminate.
  - intros H. injection H as ->. now rewrite Nat.add_0_r.
  - intros H. rewrite (IH (S number) i H).
    now replace (S number + i)%nat with (number + S i)%nat by lia.
Qed.

(** The menu and the choice agree: the line of the menu that shows an
    image carries a number, counted from one in declaration order, and
    typing that number as it is displayed returns the vendor of that very
    image. *)
Theorem the_number_shown_selects_its_vendor
    (cat : catalog) (device : string) (c : configuration) (i : nat)
    (b : bios_image) (rest : list string) (t : list event) :
  lookup cat device = Return c ->
  in_vendors "" (bios c) = false ->
  nth_error (bios c) i = Some b ->
  nth_error (menu (bios c)) i
    = Some (Print (Py.str_of_nat (S i) ++ ": " ++ vendor b)%string)
  /\ get_user_selection cat device (mk_world (Py.str_of_nat (S i) :: rest) t)
     = (Return (Some (vendor b)), mk_world rest (t ++ menu (bios c))).
Proof.
  intros Hc Hempty Hnth. split.
  - unfold menu. now rewrite (menu_from_nth 1 i _ b Hnth).
  - rewrite (get_user_selection_loop _ _ _ _ Hc). cbn [stdin trace].
    destruct (selection_loop_chosen (bios c) (Py.str_of_nat (S i))
                (Z.of_nat (S i)) rest t Hempty (int_of_str (S i)))
      as [chosen [Hchosen Hsel]].
    + assert (i < List.length (bios c))%nat
        by (apply nth_error_Some; congruence).
      unfold in_range. lia.
    + replace (Z.to_nat (Z.of_nat (S i) - 1)) with i in Hchosen by lia.
      rewrite Hnth in Hchosen. injection Hchosen as <-. exact Hsel.
Qed.

Lemma the_number_shown_selects_its_vendor_witness :
  nth_error (menu [fw6_ami; fw6_coreboot]) 1 = Some (Print "2: coreboot")
  /\ get_user_selection CONFIGURATIONS "fw6e" (mk_world ["2"; "1"] [])
     = (Return (Some "coreboot"),
        mk_world ["1"] ([] ++ menu [fw6_ami; fw6_coreboot])).
Proof.
  exact (the_number_shown_selects_its_vendor CONFIGURATIONS "fw6e"
           (mk_configuration "8550U" [fw6_ami; fw6_coreboot]
              flash_command (Some overrider_command) None)
           1 fw6_coreboot ["1"] [] eq_refl eq_refl eq_refl).
Defined.

(** *** The command line as the path of a program *)

Lemma command_line_is_not_flashrom (file_path : option string) :
  spawned_command file_path <> "vendor/flashrom".
Proof. unfold spawned_command, flash_command. cbn. discriminate. Qed.

(** On a system where the only program that can be started is
    [vendor/flashrom], the flash cannot start: once a selection is made
    with the debug device unset, the whole command line is looked up as
    the path of a program, the call of [subprocess.run] raises
    [FileNotFoundError], and [main] ends with it, printing neither the
    success nor the failure report. *)
Theorem the_flash_cannot_start
    (env : environment) (cat : catalog) (w w2 : world)
    (selection file_path : option string) :
  supported env = true ->
  bios_mode_of env <> "EFI" ->
  Py.truthy (DEBUGMODE env) = false ->
  get_user_selection cat (device_of env) (OfferSelection env w)
    = (Return selection, w2) ->
  get_image_path cat (device_of env) selection = Return file_path ->
  (forall path, path <> "vendor/flashrom" -> execute env path = Raise FileNotFoundError) ->
  main env cat w
  = (Raise FileNotFoundError,
     mk_world (stdin w2) (trace w2 ++ [Run (spawned_command file_path)])).
Proof.
  intros Hsup Hmode Hdebug Hsel Hpath Hsystem.
  rewrite (main_after_selection env cat w w2 selection file_path
             Hsup Hmode Hdebug Hsel Hpath).
  now rewrite (Hsystem _ (command_line_is_not_flashrom file_path)).
Qed.

Lemma the_flash_cannot_start_witness :
  main (bench.posix_env "fw6d") CONFIGURATIONS (bench.typed ["1"])
  = (Raise FileNotFoundError,
     mk_world []
       (trace (OfferSelection (bench.posix_env "fw6d") (bench.typed ["1"]))
        ++ [ Print "1: ami"; Print "2: coreboot";
             Run "vendor/flashrom -p internal -w images/FW6_all_YKBR6L12.bin --ifd -i bios" ])).
Proof.
  assert (Hmode : "Legacy" <> "EFI") by discriminate.
  assert (Hsystem : forall path, path <> "vendor/flashrom" ->
                      bench.only_flashrom path = Raise FileNotFoundError).
  { intros path Hpath. unfold bench.only_flashrom.
    destruct (String.eqb_spec path "vendor/flashrom"); [contradiction | reflexivity]. }
  exact (the_flash_cannot_start (bench.posix_env "fw6d") CONFIGURATIONS
           (bench.typed ["1"])
           (mk_world []
              (trace (OfferSelection (bench.posix_env "fw6d") (bench.typed ["1"]))
               ++ [Print "1: ami"; Print "2: coreboot"]))
           (Some "ami") (Some "images/FW6_all_YKBR6L12.bin")
           eq_refl Hmode eq_refl eq_refl eq_refl Hsystem).
Defined.
